(** * Verification of the PDF-to-CSV conversion pipeline (app/pdfconv)

    Shallow embedding of the Python modules [app/pdfconv/utils.py],
    [app/pdfconv/basic.py], [app/pdfconv/config.py],
    [app/pdfconv/message_builder.py] and [app/pdfconv/ai.py].

    Text is modelled as [list ascii] (a Python [str] restricted to ASCII);
    identifiers used as dictionary keys are Stdlib [string]s. *)

From Stdlib Require Import List Ascii String Bool Arith Lia.
Import ListNotations.
Open Scope list_scope.

(* ------------------------------------------------------------------ *)
(** ** Python string primitives *)

Module PyStr.

Definition text := list ascii.

(** A Python literal, written as a Rocq string. *)
Definition lit (s : string) : text := list_ascii_of_string s.

Definition nl : ascii := "010"%char.

Definition ascii_eqb (a b : ascii) : bool :=
  if ascii_dec a b then true else false.

(** [str.isspace] on one ASCII character: [\t \n \v \f \r], the
    separators [\x1c]..[\x1f], and the space. *)
Definition isspace (c : ascii) : bool :=
  let n := nat_of_ascii c in
  ((9 <=? n) && (n <=? 13)) || ((28 <=? n) && (n <=? 32)).

(** [s.startswith(p)] *)
Fixpoint startswith (s p : text) : bool :=
  match p, s with
  | [], _ => true
  | c :: p', d :: s' => ascii_eqb c d && startswith s' p'
  | _ :: _, [] => false
  end.

(** [p in s] for a substring [p] *)
Fixpoint contains (s p : text) : bool :=
  startswith s p ||
  match s with
  | [] => false
  | _ :: s' => contains s' p
  end.

(** [s.replace(old, '')] for a non-empty [old]: scan left to right,
    drop each non-overlapping occurrence.  [fuel] bounds the scan; the
    wrapper gives it the length of [s], which always suffices. *)
Fixpoint replace_empty_fuel (fuel : nat) (old s : text) : text :=
  match fuel with
  | O => s
  | S fuel' =>
      match s with
      | [] => []
      | c :: s' =>
          if startswith s old
          then replace_empty_fuel fuel' old (skipn (List.length old) s)
          else c :: replace_empty_fuel fuel' old s'
      end
  end.

Definition replace_empty (s old : text) : text :=
  replace_empty_fuel (List.length s) old s.

(** [s.lstrip()] *)
Fixpoint lstrip (s : text) : text :=
  match s with
  | [] => []
  | c :: s' => if isspace c then lstrip s' else s
  end.

(** [s.rstrip()] *)
Definition rstrip (s : text) : text := rev (lstrip (rev s)).

(** [s.strip()] *)
Definition strip (s : text) : text := rstrip (lstrip s).

(** [s.split(sep)] for a one-character separator. *)
Fixpoint split (sep : ascii) (s : text) : list text :=
  match s with
  | [] => [[]]
  | c :: s' =>
      if ascii_eqb c sep then [] :: split sep s'
      else match split sep s' with
           | [] => [[c]]
           | l :: ls => (c :: l) :: ls
           end
  end.

(** [sep.join(xs)] for a one-character separator. *)
Fixpoint join (sep : ascii) (xs : list text) : text :=
  match xs with
  | [] => []
  | [x] => x
  | x :: xs' => x ++ sep :: join sep xs'
  end.

(** [s.rfind(c)] for one character: the index of its last occurrence. *)
Definition rfind (s : text) (c : ascii) : option nat :=
  fst (fold_left
         (fun '(acc, i) d => (if ascii_eqb d c then Some i else acc, S i))
         s (None, 0)).

(** [s.lower()] on ASCII letters. *)
Definition lower_char (c : ascii) : ascii :=
  let n := nat_of_ascii c in
  if (65 <=? n) && (n <=? 90) then ascii_of_nat (n + 32) else c.

Definition lower (s : string) : string :=
  string_of_list_ascii (map lower_char (list_ascii_of_string s)).

End PyStr.

Import PyStr.

(* ------------------------------------------------------------------ *)
(** ** Exceptions raised by the pipeline *)

Inductive exn :=
| ValueError (msg : text)
| ProviderError                      (* anything [llm.invoke] raises *)
| NameError (name : string)
| OSError.                           (* the input file cannot be read *)

Inductive result (A : Type) :=
| Ok (a : A)
| Raise (e : exn).
Arguments Ok {A} a.
Arguments Raise {A} e.

(* ------------------------------------------------------------------ *)
(** ** [CsvProcessor] (utils.py) *)

Module CsvProcessor.

(** [CsvProcessor.clean_response] *)
Definition clean_response (response_content : text) : result text :=
  match response_content with
  | [] => Raise (ValueError (lit "LLM returned empty response"))
  | _ =>
      let result :=
        strip (replace_empty (replace_empty response_content (lit "```csv"))
                             (lit "```")) in
      match result with
      | [] => Raise (ValueError (lit "LLM returned empty CSV after cleaning"))
      | _ => Ok result
      end
  end.

(** [CsvProcessor.remove_header] *)
Definition remove_header (csv_content : text) : text :=
  let lines := split nl csv_content in
  if 1 <? List.length lines then join nl (tl lines) else csv_content.

End CsvProcessor.

(* ------------------------------------------------------------------ *)
(** ** [PdfUtils] (utils.py)

    A PDF document is represented by the 0-based indices of the pages it
    holds: [PyPDF2.PdfWriter] applied to [range(start, end)] yields the
    document [seq start (end - start)].  What PyPDF2 extracts from a page
    is given by [page_extract]. *)

Definition pdf_doc := list nat.

Inductive page_extract :=
| Extracted (t : option text)   (* [page.extract_text()] returned [t] ([None] or a str) *)
| ExtractFails.                 (* [page.extract_text()] raised *)

Record PdfChunk := mkChunk {
  data : pdf_doc;
  start_page : nat;
  end_page : nat;
  total_pages : nat
}.

Module PdfUtils.

(** The body of [for start_page in range(0, total_pages, pages_per_chunk)];
    [fuel] bounds the number of iterations (the wrapper passes
    [total_pages], enough for a positive step). *)
Fixpoint chunks_from (fuel start total_pages pages_per_chunk : nat)
  : list PdfChunk :=
  match fuel with
  | O => []
  | S fuel' =>
      if start <? total_pages then
        let end_page := Nat.min (start + pages_per_chunk) total_pages in
        {| data := seq start (end_page - start);
           start_page := start + 1;
           end_page := end_page;
           total_pages := total_pages |}
          :: chunks_from fuel' (start + pages_per_chunk) total_pages pages_per_chunk
      else []
  end.

(** [PdfUtils.split_into_chunks]; [range] with a zero step raises
    [ValueError]. *)
Definition split_into_chunks (total_pages pages_per_chunk : nat)
  : result (list PdfChunk) :=
  if pages_per_chunk =? 0
  then Raise (ValueError (lit "range() arg 3 must not be zero"))
  else Ok (chunks_from total_pages 0 total_pages pages_per_chunk).

(** [page.extract_text() or ""], with an exception read as [""]. *)
Definition page_text (p : page_extract) : text :=
  match p with
  | Extracted (Some t) => t
  | Extracted None => []
  | ExtractFails => []
  end.

Definition truthy (t : text) : bool :=
  match t with [] => false | _ => true end.

(** [PdfUtils.extract_text]; [reader] is [None] when [PyPDF2.PdfReader]
    raises on the bytes, [Some pages] otherwise. *)
Definition extract_text (reader : option (list page_extract)) : option text :=
  match reader with
  | None => None
  | Some pages =>
      let pages_text := filter truthy (map page_text pages) in
      match pages_text with
      | [] => None
      | _ => Some (strip (join nl pages_text))
      end
  end.

End PdfUtils.

(** The 1-indexed pages a chunk covers, [start_page .. end_page]. *)
Definition page_span (c : PdfChunk) : list nat :=
  seq (start_page c) (end_page c - start_page c + 1).

(* ------------------------------------------------------------------ *)
(** ** The deterministic path (basic.py) *)

Module Basic.

(** The [while] loop of [_find_common_prefix]: the number of leading
    positions [i < prefix_len] where [s0] and [s] agree. *)
Fixpoint match_len (prefix_len : nat) (s0 s : text) : nat :=
  match prefix_len, s0, s with
  | S k, c0 :: s0', c :: s' =>
      if ascii_eqb c0 c then S (match_len k s0' s') else 0
  | _, _, _ => 0
  end.

Fixpoint prefix_scan (max_len : nat) (s0 : text) (prefix_len : nat)
    (strings : list text) : text :=
  match strings with
  | [] => firstn prefix_len s0
  | s :: rest =>
      let i := match_len prefix_len s0 (firstn max_len s) in
      if i =? 0 then [] else prefix_scan max_len s0 i rest
  end.

(** [_find_common_prefix] *)
Definition find_common_prefix (strings : list text) (max_len : nat) : text :=
  match strings with
  | [] => []
  | s :: rest =>
      let s0 := firstn max_len s in
      prefix_scan max_len s0 (List.length s0) rest
  end.

(** Lines 60-71 of [pdf_to_csv]: the masthead dedupe of the page list. *)
Definition dedupe_pages (dedupe_header : bool) (pages : list text) : list text :=
  if dedupe_header && (1 <? List.length pages) then
    let prefix := find_common_prefix pages 1000 in
    let prefix :=
      if contains prefix [nl] then
        match rfind prefix nl with
        | Some last_nl => firstn (last_nl + 1) prefix
        | None => prefix
        end
      else prefix in
    if 10 <=? List.length (strip prefix) then
      map (fun p => if startswith p prefix
                    then skipn (List.length prefix) p else p) pages
    else pages
  else pages.

(** The prefix [pdf_to_csv] computes before the length test: the common
    prefix of the pages, cut after its last line break if it has one. *)
Definition masthead_prefix (pages : list text) : text :=
  let prefix := find_common_prefix pages 1000 in
  if contains prefix [nl] then
    match rfind prefix nl with
    | Some last_nl => firstn (last_nl + 1) prefix
    | None => prefix
    end
  else prefix.

(** [text.replace("\r\n", "\n")] *)
Fixpoint crlf_to_lf (s : text) : text :=
  match s with
  | "013"%char :: "010"%char :: s' => nl :: crlf_to_lf s'
  | c :: s' => c :: crlf_to_lf s'
  | [] => []
  end.

(** [re.sub(pat, r, s)] where [pat] is a run of one or more characters
    satisfying [p]; [in_run] records that the previous character was one. *)
Fixpoint collapse_runs (p : ascii -> bool) (r : ascii) (in_run : bool)
    (s : text) : text :=
  match s with
  | [] => []
  | c :: s' =>
      if p c then
        if in_run then collapse_runs p r true s'
        else r :: collapse_runs p r true s'
      else c :: collapse_runs p r false s'
  end.

(** [_normalize_text]; [\n{2,}] replaced by one newline leaves every run
    of newlines as a single newline, as [\s+] does for whitespace. *)
Definition normalize_text (t : text) (preserve_newlines : bool) : text :=
  let t := crlf_to_lf t in
  if preserve_newlines
  then strip (collapse_runs (ascii_eqb nl) nl false t)
  else strip (collapse_runs isspace " "%char false t).

(** [pdf_to_text], on the pages PyPDF2 reads from [content]: a page whose
    extraction raises or returns [None] contributes an empty line. *)
Definition pdf_to_text (reader_pages : list page_extract) : text :=
  join nl (map PdfUtils.page_text reader_pages).

Inductive cell := CInt (n : nat) | CStr (t : text).

(** The names bound at module level in basic.py (lines 1-7): [PyPDF2],
    [BytesIO], [re], [List]; [csv] is not among them. *)
Definition basic_globals : list string := ["PyPDF2"; "BytesIO"; "re"; "List"]%string.

Definition name_bound (globals : list string) (x : string) : bool :=
  existsb (String.eqb x) globals.

(** [pdf_to_csv], run in a module whose global names are [globals].
    Returns the rows held by the file at [output_path] after the call and
    the call's outcome.  [open(output_path, "w")] truncates the file before
    [csv.writer] is looked up. *)
Definition pdf_to_csv (globals : list string) (reader_pages : list page_extract)
    (dedupe_header preserve_newlines : bool) : list (list cell) * result nat :=
  let pages := map PdfUtils.page_text reader_pages in
  let pages := dedupe_pages dedupe_header pages in
  if name_bound globals "csv" then
    let rows :=
      [CStr (lit "page"); CStr (lit "text")]
        :: map (fun '(i, t) => [CInt i; CStr (normalize_text t preserve_newlines)])
               (combine (seq 1 (List.length pages)) pages) in
    (rows, Ok 0)
  else ([], Raise (NameError "csv")).

End Basic.

(* ------------------------------------------------------------------ *)
(** ** [LLMProviderConfig] (config.py) *)

Module Config.

Record model_config := {
  model : string;
  package : string;
  class : string;
  sdk : string;
  api_base : option string;
  api_key_env : option string;
  max_chunk_pages : option nat
}.

(** [LLMProviderConfig.MODEL_CONFIGS], in its insertion order. *)
Definition MODEL_CONFIGS : list (string * model_config) :=
  [("openai"%string,
    {| model := "gpt-4o"; package := "langchain_openai"; class := "ChatOpenAI";
       sdk := "openai"; api_base := None; api_key_env := None;
       max_chunk_pages := None |});
   ("openrouter"%string,
    {| model := "nvidia/nemotron-3-nano-30b-a3b:free";
       package := "langchain_openai"; class := "ChatOpenAI"; sdk := "openai";
       api_base := Some "https://openrouter.ai/api/v1";
       api_key_env := Some "OPENROUTER_API_KEY"; max_chunk_pages := None |});
   ("groq"%string,
    {| model := "llama-3.3-70b-versatile"; package := "langchain_groq";
       class := "ChatGroq"; sdk := "groq"; api_base := None;
       api_key_env := Some "GROQ_API_KEY"; max_chunk_pages := Some 5 |});
   ("google"%string,
    {| model := "gemini-2.5-flash-lite"; package := "langchain_google_genai";
       class := "ChatGoogleGenerativeAI"; sdk := "google"; api_base := None;
       api_key_env := Some "GEMINI_API_KEY"; max_chunk_pages := None |})]%string.

Definition STRUCTURED_MESSAGE_SDKS : list string := ["openai"%string].

Definition lookup (k : string) : option model_config :=
  match find (fun '(k', _) => String.eqb k k') MODEL_CONFIGS with
  | Some (_, v) => Some v
  | None => None
  end.

(** [LLMProviderConfig.get_max_chunk_pages] *)
Definition get_max_chunk_pages (llm_type : string) (default : nat) : nat :=
  match lookup llm_type with
  | None => default
  | Some info =>
      match max_chunk_pages info with
      | Some n => n
      | None => default
      end
  end.

(** [LLMProviderConfig.supports_structured_messages] *)
Definition supports_structured_messages (llm_type : string) : bool :=
  let supports :=
    map fst (filter (fun '(_, info) =>
                       existsb (String.eqb (sdk info)) STRUCTURED_MESSAGE_SDKS)
                    MODEL_CONFIGS) in
  existsb (String.eqb (lower llm_type)) supports.

(** The values passed to a client class. [temperature] is a whole number
    here; the converter always passes [0]. *)
Inductive kwarg :=
| KStr (s : string)
| KNat (n : nat)
| KOpt (o : option string).       (* [os.getenv(...)], possibly [None] *)

(** A client: the class imported from its package and the keyword
    arguments it was built with, in insertion order. *)
Record client := mkClient {
  client_package : string;
  client_class : string;
  client_kwargs : list (string * kwarg)
}.

(** [LLMProviderConfig.create_client]; [getenv] is [os.getenv].  The
    provider packages are taken to import and the client class to accept
    its arguments: the [PdfConverterException] of a failed import and any
    exception of the constructor (a missing API key, say) are not
    modelled, and the client is its constructor call.  The [ValueError]
    message keeps only its fixed start. *)
Definition create_client (getenv : string -> option string) (llm_type : string)
    (max_retries temperature timeout : nat) : result client :=
  match lookup llm_type with
  | None => Raise (ValueError (lit "Unknown llm_type"))
  | Some config =>
      let client_kwargs :=
        [("model", KStr (model config)); ("temperature", KNat temperature);
         ("max_retries", KNat max_retries); ("timeout", KNat timeout)]%string in
      let client_kwargs :=
        match api_base config with
        | Some b => client_kwargs ++ [("openai_api_base"%string, KStr b)]
        | None => client_kwargs
        end in
      let client_kwargs :=
        match api_key_env config with
        | Some env =>
            let api_key := getenv env in
            if String.eqb llm_type "google" then
              client_kwargs ++ [("google_api_key"%string, KOpt api_key)]
            else if existsb (String.eqb llm_type) ["openrouter"; "openai"]%string then
              client_kwargs ++ [("openai_api_key"%string, KOpt api_key)]
            else client_kwargs
        | None => client_kwargs
        end in
      Ok {| client_package := package config; client_class := class config;
            client_kwargs := client_kwargs |}
  end.

End Config.

(** [d[k]] on a [dict] kept as an association list in insertion order. *)
Definition dict_get {A} (d : list (string * A)) (k : string) : option A :=
  match find (fun '(k', _) => String.eqb k k') d with
  | Some (_, v) => Some v
  | None => None
  end.

(** [PdfConverter._get_or_create_client] on the cache [self.llms]: the
    client returned and the cache afterwards. *)
Definition get_or_create_client (getenv : string -> option string)
    (llms : list (string * Config.client)) (llm_type : string) (max_retries : nat)
    : result (Config.client * list (string * Config.client)) :=
  match dict_get llms llm_type with
  | Some c => Ok (c, llms)
  | None =>
      match Config.create_client getenv llm_type max_retries 0 120 with
      | Ok c => Ok (c, llms ++ [(llm_type, c)])
      | Raise e => Raise e
      end
  end.

(* ------------------------------------------------------------------ *)
(** ** [MessageBuilder] (message_builder.py)

    The two library services the builder relies on are section
    variables: PyPDF2's reading of a document ([read_pdf], [None] when
    [PdfReader] raises) and the base64 encoding of its bytes. *)

Inductive part :=
| TextPart (t : text)
| ImageUrlPart (url : text).

Inductive HumanMessage :=
| StructuredMessage (content : list part)
| FlatMessage (content : text).

Section Pipeline.

Variable read_pdf : pdf_doc -> option (list page_extract).
Variable b64encode : pdf_doc -> text.
(** [chunk.page_range] rendered as text. *)
Variable page_range : PdfChunk -> text.

Definition data_uri (chunk_data : pdf_doc) : text :=
  lit "data:application/pdf;base64," ++ b64encode chunk_data.

(** [MessageBuilder.build_conversion_prompt] *)
Definition build_conversion_prompt (chunk_info : text)
    (is_first_chunk remove_header_if_not_first : bool) : text :=
  let prompt := lit "Attached is a spreadsheet in PDF" ++ chunk_info ++
                lit ". Convert it to CSV format. " ++
                lit "Only return CSV, do not add any other additional text or response or annotation. Just the csv. " in
  if remove_header_if_not_first && negb is_first_chunk
  then prompt ++ lit "Do not include the header row since this is a continuation of a previous chunk."
  else prompt.

(** [MessageBuilder.build_message]; [if not extracted_text] reads both
    [None] and [""] as absent. *)
Definition build_message (prompt : text) (chunk_data : pdf_doc)
    (llm_type : string) (use_structured_messages extract_text : bool)
    : HumanMessage :=
  let extracted_text :=
    if extract_text then PdfUtils.extract_text (read_pdf chunk_data) else None in
  let extracted :=
    match extracted_text with
    | Some t => if PdfUtils.truthy t then Some t else None
    | None => None
    end in
  if use_structured_messages && Config.supports_structured_messages llm_type then
    StructuredMessage
      (TextPart prompt ::
       match extracted with
       | Some t => [TextPart t]
       | None => [ImageUrlPart (data_uri chunk_data)]
       end)
  else
    FlatMessage
      (match extracted with
       | Some t => prompt ++ lit "

Extracted text:
" ++ t
       | None => prompt ++ lit "

Attached PDF (base64):
" ++ data_uri chunk_data
       end).

(* ------------------------------------------------------------------ *)
(** ** [PdfConverter] (ai.py)

    The LLM client is a section variable: [llm_invoke n msg] is what the
    client's [invoke([msg])] does at the [n]-th invocation of a call (a
    response object carrying [content], a response without content, or
    an exception).  A run is recorded as the list of its observable events:
    provider invocations, file writes and, for the generator, the items
    handed to the consumer. *)

Inductive response :=
| Response (content : text)
| NoContent
| InvokeRaises.

Variable llm_invoke : nat -> HumanMessage -> response.

(** The files written: [output_filename], [f"{output_filename}.incomplete"]
    and [f"{output_filename}.partial_{chunk_index}"]. *)
Inductive path :=
| OutFile (f : string)
| IncompleteFile (f : string)
| PartialFile (f : string) (chunk_index : nat).

Inductive event :=
| EvInvoke (n : nat) (msg : HumanMessage)
| EvSave (p : path) (content : text)     (* [FileManager.save_to_file] *)
| EvOpen (p : path)                      (* [open(p, 'w')] *)
| EvWrite (p : path) (content : text)    (* [output_file.write] *)
| EvClose (p : path)
| EvYield (csv : text).

(** [ConversionConfig]; the fields carry a [cfg_] prefix. *)
Record ConversionConfig := {
  cfg_max_pages_per_chunk : nat;
  cfg_auto_chunk : bool;
  cfg_remove_header_if_not_first : bool;
  cfg_max_retries : nat;
  cfg_use_structured_messages : bool;
  cfg_extract_text : bool
}.

Definition is_nil_list {A} (l : list A) : bool :=
  match l with [] => true | _ => false end.

Definition is_some {A} (o : option A) : bool :=
  match o with Some _ => true | None => false end.

(** Python truthiness of the optional [output_filename]. *)
Definition filename (o : option string) : option string :=
  match o with
  | Some f => if String.eqb f "" then None else Some f
  | None => None
  end.

(** [PdfConverter._convert_chunk], as the [n]-th invocation of the call. *)
Definition convert_chunk (n : nat) (chunk_data : pdf_doc) (llm_type : string)
    (chunk_info : text) (is_first_chunk remove_header_if_not_first : bool)
    (use_structured extract : bool) : list event * result text :=
  let prompt := build_conversion_prompt chunk_info is_first_chunk
                  remove_header_if_not_first in
  let message := build_message prompt chunk_data llm_type use_structured extract in
  ([EvInvoke n message],
   match llm_invoke n message with
   | Response c => CsvProcessor.clean_response c
   | NoContent => Raise (ValueError (lit "Invalid response from LLM: no content"))
   | InvokeRaises => Raise ProviderError
   end).

(** [FileManager.save_partial_results] *)
Definition save_partial_results (csv_data_list : list text)
    (output_filename : option string) (chunk_index : nat) : list event :=
  match filename output_filename with
  | None => []
  | Some f => [EvSave (PartialFile f chunk_index) (join nl csv_data_list)]
  end.

Inductive failure_kind :=
| NoChunkConverted (chunk_number : nat)  (* "Failed to convert any chunks. Error on chunk {i+1}" *)
| ReadFailed                             (* "Failed to read PDF" *)
| ConvertFailed                          (* "Failed to convert PDF" *)
| PrepareFailed.                         (* "Failed to prepare PDF" *)

Inductive conv_error :=
| PdfConverterException (kind : failure_kind) (cause : exn)
| Uncaught (e : exn).               (* an exception not wrapped by the converter *)

(** [PdfConverter._handle_chunk_failure] *)
Definition handle_chunk_failure (all_csv_data : list text)
    (output_filename : option string) (chunk_index : nat) (error : exn)
    : list event * sum conv_error text :=
  match all_csv_data with
  | [] => ([], inl (PdfConverterException (NoChunkConverted (chunk_index + 1)) error))
  | _ =>
      let result := join nl all_csv_data in
      (save_partial_results all_csv_data output_filename chunk_index ++
       match filename output_filename with
       | Some f => [EvSave (IncompleteFile f) result]
       | None => []
       end,
       inr result)
  end.

(** The loop of [PdfConverter._process_chunks] from chunk [i] on, with
    [all_csv_data] the results so far. *)
Fixpoint process_chunks_from (chunks : list PdfChunk) (i : nat)
    (all_csv_data : list text) (llm_type : string) (config : ConversionConfig)
    (output_filename : option string) : list event * sum conv_error text :=
  match chunks with
  | [] => ([], inr (join nl all_csv_data))
  | chunk :: rest =>
      let chunk_info := lit " (" ++ page_range chunk ++ lit ")" in
      let '(evs, r) :=
        convert_chunk i (data chunk) llm_type chunk_info (i =? 0)
          (cfg_remove_header_if_not_first config) (cfg_use_structured_messages config)
          (cfg_extract_text config) in
      match r with
      | Ok csv_data =>
          let csv_data :=
            if cfg_remove_header_if_not_first config && (0 <? i)
               && PdfUtils.truthy csv_data
            then CsvProcessor.remove_header csv_data else csv_data in
          let '(evs', r') :=
            process_chunks_from rest (S i) (all_csv_data ++ [csv_data])
              llm_type config output_filename in
          (evs ++ evs', r')
      | Raise e =>
          let '(evs', r') := handle_chunk_failure all_csv_data output_filename i e in
          (evs ++ evs', r')
      end
  end.

(** [PdfConverter._process_chunks] *)
Definition process_chunks (chunks : list PdfChunk) (llm_type : string)
    (config : ConversionConfig) (output_filename : option string)
    : list event * sum conv_error text :=
  process_chunks_from chunks 0 [] llm_type config output_filename.

(** [PdfConverter._get_or_create_client]: [create_client] raises
    [ValueError] on an unknown [llm_type]; the provider packages are taken
    to import. *)
Definition client_ok (llm_type : string) : bool :=
  match Config.lookup llm_type with Some _ => true | None => false end.

(** The [ConversionConfig] built by [convert]. *)
Definition batch_config (llm_type : string) (max_pages_per_chunk : nat)
    (auto_chunk remove_header_if_not_first : bool) (max_retries : nat)
    (use_structured_messages extract_text : bool) : ConversionConfig :=
  {| cfg_max_pages_per_chunk := Config.get_max_chunk_pages llm_type max_pages_per_chunk;
     cfg_auto_chunk := auto_chunk;
     cfg_remove_header_if_not_first := remove_header_if_not_first;
     cfg_max_retries := max_retries;
     cfg_use_structured_messages := use_structured_messages;
     cfg_extract_text := extract_text |}.

(** The [ConversionConfig] built by [convert_streaming] ([auto_chunk]
    keeps its default). *)
Definition streaming_config (max_pages_per_chunk : nat)
    (remove_header_if_not_first : bool) (max_retries : nat)
    (use_structured_messages extract_text : bool) : ConversionConfig :=
  {| cfg_max_pages_per_chunk := max_pages_per_chunk;
     cfg_auto_chunk := true;
     cfg_remove_header_if_not_first := remove_header_if_not_first;
     cfg_max_retries := max_retries;
     cfg_use_structured_messages := use_structured_messages;
     cfg_extract_text := extract_text |}.

(** [PdfConverter.convert].  [page_count] is [PdfUtils.get_page_count] of
    the input file ([None] when reading it raises); the whole file read
    in the single-pass branch holds pages [0 .. page_count - 1]. *)
Definition convert (page_count : option nat) (output_filename : option string)
    (llm_type : string) (max_pages_per_chunk : nat) (auto_chunk : bool)
    (remove_header_if_not_first : bool) (max_retries : nat)
    (use_structured_messages extract_text : bool)
    : list event * sum conv_error text :=
  let config :=
    batch_config llm_type max_pages_per_chunk auto_chunk remove_header_if_not_first
      max_retries use_structured_messages extract_text in
  if negb (client_ok llm_type)
  then ([], inl (Uncaught (ValueError (lit "Unknown llm_type"))))
  else
  match page_count with
  | None => ([], inl (PdfConverterException ReadFailed OSError))
  | Some page_count =>
      let '(evs, r) :=
        if cfg_auto_chunk config
           && (cfg_max_pages_per_chunk config <? page_count) then
          match PdfUtils.split_into_chunks page_count
                  (cfg_max_pages_per_chunk config) with
          | Raise e => ([], inl (PdfConverterException ConvertFailed e))
          | Ok chunks => process_chunks chunks llm_type config output_filename
          end
        else
          let '(evs, r) :=
            convert_chunk 0 (seq 0 page_count) llm_type [] true false
              (cfg_use_structured_messages config)
              (cfg_extract_text config) in
          (evs, match r with
                | Ok c => inr c
                | Raise e => inl (PdfConverterException ConvertFailed e)
                end) in
      match r with
      | inl e => (evs, inl e)
      | inr result =>
          (evs ++ match filename output_filename with
                  | Some f => [EvSave (OutFile f) result]
                  | None => []
                  end, inr result)
      end
  end.

(** The loop of [PdfConverter.convert_streaming] from chunk [i] on.
    [out] is the output file opened at the start, if any. *)
Fixpoint stream_from (chunks : list PdfChunk) (i n_chunks : nat)
    (all_csv_data : list text) (llm_type : string) (config : ConversionConfig)
    (output_filename out : option string) : list event :=
  match chunks with
  | [] => []
  | chunk :: rest =>
      let chunk_info := lit " (" ++ page_range chunk ++ lit ")" in
      let '(evs, r) :=
        convert_chunk i (data chunk) llm_type chunk_info (i =? 0)
          (cfg_remove_header_if_not_first config)
          (cfg_use_structured_messages config)
          (cfg_extract_text config) in
      match r with
      | Ok csv_data =>
          let csv_data :=
            if cfg_remove_header_if_not_first config && (0 <? i)
            then CsvProcessor.remove_header csv_data else csv_data in
          let writes :=
            match out with
            | Some f => EvWrite (OutFile f) csv_data
                          :: (if i <? n_chunks - 1 then [EvWrite (OutFile f) [nl]] else [])
            | None => []
            end in
          evs ++ writes ++ [EvYield csv_data]
              ++ stream_from rest (S i) n_chunks (all_csv_data ++ [csv_data])
                   llm_type config output_filename out
      | Raise e =>
          evs ++ (if negb (is_nil_list all_csv_data) && is_some (filename output_filename)
                  then save_partial_results all_csv_data output_filename i
                  else [])
      end
  end.

(** [PdfConverter.convert_streaming], consumed to the end: the events of
    the run, and [None] when the generator ends by exhaustion or [Some e]
    when it raises [e] to the consumer.  Opening the output file is taken
    to succeed. *)
Definition convert_streaming (page_count : option nat)
    (output_filename : option string) (llm_type : string)
    (max_pages_per_chunk : nat) (remove_header_if_not_first : bool)
    (max_retries : nat) (use_structured_messages extract_text : bool)
    : list event * option conv_error :=
  let config :=
    streaming_config max_pages_per_chunk remove_header_if_not_first max_retries
      use_structured_messages extract_text in
  if negb (client_ok llm_type)
  then ([], Some (Uncaught (ValueError (lit "Unknown llm_type"))))
  else
  match page_count with
  | None => ([], Some (PdfConverterException PrepareFailed OSError))
  | Some page_count =>
      match PdfUtils.split_into_chunks page_count (cfg_max_pages_per_chunk config) with
      | Raise e => ([], Some (PdfConverterException PrepareFailed e))
      | Ok chunks =>
          let out := filename output_filename in
          let opened := match out with Some f => [EvOpen (OutFile f)] | None => [] end in
          let closed := match out with Some f => [EvClose (OutFile f)] | None => [] end in
          (opened ++ stream_from chunks 0 (List.length chunks) [] llm_type config
                       output_filename out ++ closed,
           None)
      end
  end.

(** What [_convert_chunk] gives for chunk [c] at position [i] of a
    run, as both loops call it. *)
Definition chunk_result (i : nat) (c : PdfChunk) (llm_type : string)
    (config : ConversionConfig) : result text :=
  snd (convert_chunk i (data c) llm_type (lit " (" ++ page_range c ++ lit ")")
         (i =? 0) (cfg_remove_header_if_not_first config)
         (cfg_use_structured_messages config) (cfg_extract_text config)).

(** The header policy the batch loop applies to the text of chunk [i]. *)
Definition batch_header_policy (config : ConversionConfig) (i : nat) (csv_data : text) : text :=
  if cfg_remove_header_if_not_first config && (0 <? i) && PdfUtils.truthy csv_data
  then CsvProcessor.remove_header csv_data else csv_data.

(** The header policy the streaming loop applies to the text of chunk [i]. *)
Definition stream_header_policy (config : ConversionConfig) (i : nat) (csv_data : text) : text :=
  if cfg_remove_header_if_not_first config && (0 <? i)
  then CsvProcessor.remove_header csv_data else csv_data.

End Pipeline.

(** What an observer of a run sees: the items handed to the consumer, the
    chunk positions at which the provider was invoked, and the whole-file
    saves. *)
Definition yields (evs : list event) : list text :=
  flat_map (fun ev => match ev with EvYield s => [s] | _ => [] end) evs.

Definition invoked (evs : list event) : list nat :=
  flat_map (fun ev => match ev with EvInvoke n _ => [n] | _ => [] end) evs.

Definition saved (evs : list event) : list (path * text) :=
  flat_map (fun ev => match ev with EvSave p c => [(p, c)] | _ => [] end) evs.

(** The provider invocations of a run, with their messages. *)
Definition invocations (evs : list event) : list (nat * HumanMessage) :=
  flat_map (fun ev => match ev with EvInvoke n m => [(n, m)] | _ => [] end) evs.

(** What [output_file.write] put into the opened output file [f]. *)
Definition written (f : string) (evs : list event) : text :=
  flat_map (fun ev => match ev with
                      | EvWrite (OutFile g) c => if String.eqb f g then c else []
                      | _ => [] end) evs.

(** No two neighbouring characters of [s] both satisfy [p]. *)
Fixpoint no_adjacent (p : ascii -> bool) (s : text) : bool :=
  match s with
  | c :: ((d :: _) as s') => negb (p c && p d) && no_adjacent p s'
  | _ => true
  end.

(* ================================================================== *)
(** * Properties *)

(** ** String lemmas *)

Module StrFacts.

Lemma ascii_eqb_true a b : ascii_eqb a b = true <-> a = b.
Proof. unfold ascii_eqb; destruct (ascii_dec a b); split; congruence. Qed.

Lemma ascii_eqb_refl a : ascii_eqb a a = true.
Proof. apply ascii_eqb_true; reflexivity. Qed.

Lemma startswith_app s p q : startswith s (p ++ q) = true -> startswith s p = true.
Proof.
  revert s; induction p as [|c p IH]; intros [|d s] H; try reflexivity.
  - discriminate.
  - simpl in *. apply andb_prop in H as [H1 H2]; rewrite H1; simpl; auto.
Qed.

Lemma startswith_ext s q p : startswith s p = true -> startswith (s ++ q) p = true.
Proof.
  revert s; induction p as [|c p IH]; intros [|d s] H; simpl in *;
    try (destruct q; reflexivity); try discriminate.
  apply andb_prop in H as [H1 H2]; rewrite H1; simpl; auto.
Qed.

Lemma startswith_app_false s p q :
  startswith s p = false -> startswith s (p ++ q) = false.
Proof.
  intro H; destruct (startswith s (p ++ q)) eqn:E; auto.
  apply startswith_app in E; congruence.
Qed.

Lemma contains_nil p : contains [] p = startswith [] p.
Proof. simpl; apply orb_false_r. Qed.

Lemma contains_cons c s p :
  contains (c :: s) p = startswith (c :: s) p || contains s p.
Proof. reflexivity. Qed.

Lemma contains_app_pat s p q : contains s p = false -> contains s (p ++ q) = false.
Proof.
  induction s as [|c s IH]; intro H.
  - rewrite contains_nil in *; apply startswith_app_false; auto.
  - rewrite contains_cons in *; apply orb_false_iff in H as [H1 H2].
    rewrite startswith_app_false, IH; auto.
Qed.

(** A pattern absent from [a ++ m ++ b] is absent from [m]. *)
Lemma contains_app_l s t p : contains s p = false -> contains (s ++ t) p = false -> contains s p = false.
Proof. auto. Qed.

Lemma contains_of_startswith s p : startswith s p = true -> contains s p = true.
Proof. destruct s; intro H; [rewrite contains_nil | rewrite contains_cons, H]; auto. Qed.

Lemma contains_suffix a s p : contains (a ++ s) p = false -> contains s p = false.
Proof.
  induction a as [|c a IH]; auto.
  rewrite <- app_comm_cons, contains_cons; intro H.
  apply orb_false_iff in H as [_ H]; auto.
Qed.

Lemma contains_prefix s t p : contains (s ++ t) p = false -> contains s p = false.
Proof.
  induction s as [|c s IH]; intro H.
  - rewrite contains_nil. destruct (startswith [] p) eqn:E; auto.
    destruct p; [|discriminate].
    rewrite contains_of_startswith in H; [discriminate | destruct t; reflexivity].
  - rewrite <- app_comm_cons, contains_cons in H; rewrite contains_cons.
    apply orb_false_iff in H as [H1 H2]; apply orb_false_iff; split; auto.
    destruct (startswith (c :: s) p) eqn:E; auto.
    apply (startswith_ext _ t) in E; rewrite <- app_comm_cons in E; congruence.
Qed.

(** [s.replace(old, '')] leaves a string without [old] unchanged. *)
Lemma replace_absent fuel old s :
  contains s old = false -> replace_empty_fuel fuel old s = s.
Proof.
  revert s; induction fuel as [|fuel IH]; intros [|c s] H; auto.
  rewrite contains_cons in H; apply orb_false_iff in H as [H1 H2].
  cbn [replace_empty_fuel]; rewrite H1; f_equal; auto.
Qed.

Definition bt : ascii := "`"%char.

Lemma startswith_bt3 s k : k <= 3 ->
  startswith s (repeat bt 3) = true -> startswith s (repeat bt k) = true.
Proof.
  intros Hk H. replace (repeat bt 3) with (repeat bt k ++ repeat bt (3 - k)) in H.
  - eapply startswith_app; eauto.
  - rewrite <- repeat_app; f_equal; lia.
Qed.

(** After [replace('```', '')] no run of [k <= 3] backticks starts the
    result unless one started the input. *)
Lemma replace_bt_head fuel k s : 1 <= k <= 3 ->
  startswith s (repeat bt k) = false ->
  startswith (replace_empty_fuel fuel (repeat bt 3) s) (repeat bt k) = false.
Proof.
  revert k s; induction fuel as [|fuel IH]; intros k [|c s] Hk H;
    cbn [replace_empty_fuel]; auto.
  destruct (startswith (c :: s) (repeat bt 3)) eqn:E.
  - apply (startswith_bt3 _ k) in E; [congruence | lia].
  - destruct k as [|k]; [lia|]. simpl in H |- *.
    destruct (ascii_eqb bt c) eqn:Ec; simpl in H |- *; auto.
    destruct k as [|k]; [destruct s; simpl in H; discriminate|].
    apply IH; auto; lia.
Qed.

(** After [replace('```', '')] the result holds no three backticks. *)
Lemma replace_bt_absent fuel s : List.length s <= fuel ->
  contains (replace_empty_fuel fuel (repeat bt 3) s) (repeat bt 3) = false.
Proof.
  revert s; induction fuel as [|fuel IH]; intros [|c s] Hl; try reflexivity.
  - simpl in Hl; lia.
  - simpl in Hl. cbn [replace_empty_fuel].
    destruct (startswith (c :: s) (repeat bt 3)) eqn:E.
    + apply IH. rewrite length_skipn; simpl; lia.
    + rewrite contains_cons. apply orb_false_iff; split; [|apply IH; lia].
      simpl in E |- *.
      destruct (ascii_eqb bt c) eqn:Ec; simpl in E |- *; auto.
      apply (replace_bt_head fuel 2); auto; lia.
Qed.

(** ** [strip] *)

Lemma lstrip_suffix s : exists a, s = a ++ lstrip s.
Proof.
  induction s as [|c s [a Ha]]; simpl.
  - exists []; reflexivity.
  - destruct (isspace c).
    + exists (c :: a); simpl; congruence.
    + exists []; reflexivity.
Qed.

Lemma lstrip_head s c t : lstrip s = c :: t -> isspace c = false.
Proof.
  induction s as [|d s IH]; simpl; [discriminate|].
  destruct (isspace d) eqn:E; auto. congruence.
Qed.

Lemma lstrip_idem s : lstrip (lstrip s) = lstrip s.
Proof.
  induction s as [|c s IH]; simpl; auto.
  destruct (isspace c) eqn:E; simpl; auto. rewrite E; reflexivity.
Qed.

Lemma strip_idem s : strip (strip s) = strip s.
Proof.
  unfold strip, rstrip.
  set (u := lstrip s). set (w := lstrip (rev u)).
  assert (Hw : lstrip (rev w) = rev w).
  { destruct (lstrip_suffix (rev u)) as [a Ha]. fold w in Ha.
    assert (Hu : u = rev w ++ rev a).
    { rewrite <- (rev_involutive u), Ha, rev_app_distr; reflexivity. }
    destruct (rev w) as [|c t] eqn:Er; simpl; auto.
    assert (isspace c = false) as ->; auto.
    apply (lstrip_head s c (t ++ rev a)). fold u. rewrite Hu. reflexivity. }
  rewrite Hw, rev_involutive. unfold w. rewrite lstrip_idem. reflexivity.
Qed.

Lemma strip_absent s p : contains s p = false -> contains (strip s) p = false.
Proof.
  intro H. unfold strip, rstrip.
  destruct (lstrip_suffix s) as [a Ha].
  destruct (lstrip_suffix (rev (lstrip s))) as [b Hb].
  assert (H1 : contains (lstrip s) p = false).
  { apply (contains_suffix a). rewrite <- Ha; exact H. }
  apply (contains_prefix _ (rev b)).
  rewrite <- rev_app_distr, <- Hb, rev_involutive; exact H1.
Qed.

End StrFacts.

(** ** Response cleaning and header removal (utils.py) *)

Module CsvFacts.
Import StrFacts.

Lemma lit_fence : lit "```" = repeat bt 3.
Proof. reflexivity. Qed.

Lemma lit_fence_csv : lit "```csv" = repeat bt 3 ++ lit "csv".
Proof. reflexivity. Qed.

(** The text [clean_response] returns holds no fence marker. *)
Lemma cleaned_no_fence z :
  contains (strip (replace_empty z (lit "```"))) (repeat bt 3) = false.
Proof.
  apply strip_absent. unfold replace_empty. rewrite lit_fence.
  apply replace_bt_absent; lia.
Qed.

(** A stripped non-empty text without fence markers is a fixed point. *)
Lemma clean_response_fixed r :
  r <> [] -> contains r (repeat bt 3) = false -> strip r = r ->
  CsvProcessor.clean_response r = Ok r.
Proof.
  intros Hne Hz Hs. destruct r as [|a r]; [congruence|].
  assert (Hcsv : contains (a :: r) (lit "```csv") = false)
    by (rewrite lit_fence_csv; apply contains_app_pat; exact Hz).
  assert (Hfence : contains (a :: r) (lit "```") = false) by (rewrite lit_fence; exact Hz).
  unfold CsvProcessor.clean_response, replace_empty.
  rewrite (replace_absent _ _ (a :: r) Hcsv).
  rewrite (replace_absent _ _ (a :: r) Hfence).
  rewrite Hs. reflexivity.
Qed.

(** C8: response cleaning is idempotent: whenever [clean_response x]
    succeeds with [r], cleaning [r] again succeeds with [r] itself. *)
Theorem clean_response_idempotent x r :
  CsvProcessor.clean_response x = Ok r -> CsvProcessor.clean_response r = Ok r.
Proof.
  unfold CsvProcessor.clean_response at 1. destruct x as [|c x]; [discriminate|].
  set (z := replace_empty (c :: x) (lit "```csv")).
  pose proof (cleaned_no_fence z) as Hz.
  pose proof (strip_idem (replace_empty z (lit "```"))) as Hs.
  set (r0 := strip (replace_empty z (lit "```"))) in *.
  intro H. assert (Hr : r0 = r /\ r <> []) by (destruct r0; inversion H; split; congruence).
  destruct Hr as [<- Hne].
  apply clean_response_fixed; assumption.
Qed.

Lemma split_nonempty s : split nl s <> [].
Proof.
  induction s as [|c s IH]; simpl; [discriminate|].
  destruct (ascii_eqb c nl); [discriminate|].
  destruct (split nl s); discriminate.
Qed.

Lemma split_no_nl s : ~ In nl s -> split nl s = [s].
Proof.
  induction s as [|c s IH]; intro H; simpl; auto.
  destruct (ascii_eqb c nl) eqn:E.
  - apply ascii_eqb_true in E; subst; exfalso; apply H; left; reflexivity.
  - rewrite IH; auto. intro Hin; apply H; right; exact Hin.
Qed.

Lemma split_first_line a b : ~ In nl a -> split nl (a ++ nl :: b) = a :: split nl b.
Proof.
  induction a as [|c a IH]; intro H; simpl.
  - reflexivity.
  - destruct (ascii_eqb c nl) eqn:E.
    + apply ascii_eqb_true in E; subst; exfalso; apply H; left; reflexivity.
    + rewrite IH; auto. intro Hin; apply H; right; exact Hin.
Qed.

Lemma join_cons_char c x ls : join nl ((c :: x) :: ls) = c :: join nl (x :: ls).
Proof. destruct ls; reflexivity. Qed.

(** [sep.join(s.split(sep)) == s] *)
Lemma join_split s : join nl (split nl s) = s.
Proof.
  induction s as [|c s IH]; cbn [split]; auto.
  destruct (ascii_eqb c nl) eqn:E.
  - apply ascii_eqb_true in E; subst c.
    pose proof (split_nonempty s) as Hne.
    destruct (split nl s) as [|l ls]; [congruence|].
    change (join nl ([] :: l :: ls)) with ([] ++ nl :: join nl (l :: ls)).
    simpl app; f_equal; exact IH.
  - pose proof (split_nonempty s) as Hne.
    destruct (split nl s) as [|l ls]; [congruence|].
    rewrite join_cons_char; f_equal; exact IH.
Qed.

(** C9: [remove_header] leaves a text with a single line unchanged, and
    on a text with several lines drops the first line, returning exactly
    what follows the first line break; for instance
    [remove_header("a\nb\nc") == "b\nc"] and
    [remove_header("onlyline") == "onlyline"]. *)
Theorem remove_header_first_line :
  (forall s, ~ In nl s -> CsvProcessor.remove_header s = s) /\
  (forall a b, ~ In nl a -> CsvProcessor.remove_header (a ++ nl :: b) = b) /\
  CsvProcessor.remove_header (lit "a
b
c") = lit "b
c" /\
  CsvProcessor.remove_header (lit "onlyline") = lit "onlyline".
Proof.
  split; [|split; [|split]].
  - intros s H. unfold CsvProcessor.remove_header. rewrite split_no_nl; auto.
  - intros a b H. unfold CsvProcessor.remove_header. rewrite split_first_line; auto.
    destruct (split nl b) as [|l ls] eqn:E; [exfalso; exact (split_nonempty b E)|].
    simpl. rewrite <- (join_split b). rewrite E. reflexivity.
  - reflexivity.
  - reflexivity.
Qed.

End CsvFacts.

(** ** The chunk planner (utils.py, [PdfUtils.split_into_chunks]) *)

Module PlanFacts.

Section Plan.
Variables total pages_per_chunk : nat.

Lemma chunks_from_nth fuel start k c :
  nth_error (PdfUtils.chunks_from fuel start total pages_per_chunk) k = Some c ->
  start_page c = start + k * pages_per_chunk + 1 /\
  end_page c = Nat.min (start + k * pages_per_chunk + pages_per_chunk) total /\
  start + k * pages_per_chunk < total /\
  data c = seq (start + k * pages_per_chunk)
               (end_page c - (start + k * pages_per_chunk)) /\
  total_pages c = total.
Proof.
  revert start k; induction fuel as [|fuel IH]; intros start k H; simpl in H.
  - destruct k; discriminate.
  - destruct (start <? total) eqn:Hlt; [|destruct k; discriminate].
    apply Nat.ltb_lt in Hlt.
    destruct k as [|k]; simpl in H.
    + inversion H; subst c; simpl. repeat split; try lia; f_equal; lia.
    + apply IH in H as (H1 & H2 & H3 & H4 & H5).
      replace (start + S k * pages_per_chunk)
        with (start + pages_per_chunk + k * pages_per_chunk) by (simpl; lia).
      repeat split; assumption.
Qed.

Lemma chunks_from_cover fuel start :
  1 <= pages_per_chunk -> total <= start + fuel * pages_per_chunk ->
  flat_map page_span (PdfUtils.chunks_from fuel start total pages_per_chunk)
  = seq (start + 1) (total - start).
Proof.
  intro Hp. revert start; induction fuel as [|fuel IH]; intros start Hf; simpl.
  - replace (total - start) with 0 by lia; reflexivity.
  - destruct (start <? total) eqn:Hlt.
    + apply Nat.ltb_lt in Hlt. simpl.
      rewrite IH by lia. unfold page_span; simpl.
      destruct (Nat.le_gt_cases (start + pages_per_chunk) total) as [Hle|Hgt].
      * rewrite Nat.min_l by lia.
        replace (start + pages_per_chunk - (start + 1) + 1) with pages_per_chunk by lia.
        replace (total - start)
          with (pages_per_chunk + (total - (start + pages_per_chunk))) by lia.
        rewrite seq_app. f_equal. f_equal. lia.
      * rewrite Nat.min_r by lia.
        replace (total - (start + pages_per_chunk)) with 0 by lia.
        replace (total - (start + 1) + 1) with (total - start) by lia.
        apply app_nil_r.
    + apply Nat.ltb_ge in Hlt. replace (total - start) with 0 by lia; reflexivity.
Qed.

End Plan.

(** C2: for [totalPages >= 1] and [pagesPerChunk >= 1] the planner
    succeeds; chunk [k] starts at page [1 + k * pagesPerChunk], ends at
    [min(startPage + pagesPerChunk - 1, totalPages)], is non-empty, spans at
    most [pagesPerChunk] pages and holds exactly those pages; each chunk
    begins right after the previous one ends; and the page ranges of the
    chunks, in order, list [1 .. totalPages] exactly once. *)
Theorem split_into_chunks_partition total pages_per_chunk :
  1 <= total -> 1 <= pages_per_chunk ->
  exists chunks,
    PdfUtils.split_into_chunks total pages_per_chunk = Ok chunks /\
    (forall k c, nth_error chunks k = Some c ->
       start_page c = 1 + k * pages_per_chunk /\
       end_page c = Nat.min (start_page c + pages_per_chunk - 1) total /\
       1 <= start_page c <= end_page c /\
       end_page c - start_page c + 1 <= pages_per_chunk /\
       data c = seq (start_page c - 1) (end_page c - start_page c + 1) /\
       total_pages c = total) /\
    (forall k c c', nth_error chunks k = Some c -> nth_error chunks (S k) = Some c' ->
       start_page c' = end_page c + 1) /\
    flat_map page_span chunks = seq 1 total.
Proof.
  intros HT HP.
  exists (PdfUtils.chunks_from total 0 total pages_per_chunk).
  split; [unfold PdfUtils.split_into_chunks; destruct pages_per_chunk; [lia | reflexivity]|].
  split; [|split].
  - intros k c Hk.
    destruct (chunks_from_nth _ _ _ _ _ _ Hk) as (H1 & H2 & H3 & H4 & H5).
    simpl in *. rewrite H1, H2, H4, H5.
    repeat split; try lia; f_equal; lia.
  - intros k c c' Hk Hk'.
    destruct (chunks_from_nth _ _ _ _ _ _ Hk) as (H1 & H2 & H3 & _).
    destruct (chunks_from_nth _ _ _ _ _ _ Hk') as (H1' & _ & H3' & _).
    simpl in *. rewrite H1', H2. nia.
  - rewrite chunks_from_cover by nia. f_equal; lia.
Qed.

End PlanFacts.

(** ** The converter (ai.py) *)

Module ConverterFacts.

Section Run.
Variable read_pdf : pdf_doc -> option (list page_extract).
Variable b64encode : pdf_doc -> text.
Variable page_range : PdfChunk -> text.
Variable llm_invoke : nat -> HumanMessage -> response.
Variable llm_type : string.
Variable config : ConversionConfig.
Variable output_filename : option string.

(** The batch loop run from position [i0] with accumulator [acc]: when
    the chunks before position [i] succeed and chunk [i] fails, it ends as
    [_handle_chunk_failure] does on the accumulator extended with the
    successes. *)
Lemma process_chunks_from_failure chunks i0 acc i e (succ : nat -> text) :
  (forall j c, j < i -> nth_error chunks j = Some c ->
     chunk_result read_pdf b64encode page_range llm_invoke (i0 + j) c llm_type config
     = Ok (succ (i0 + j))) ->
  (exists c, nth_error chunks i = Some c /\
     chunk_result read_pdf b64encode page_range llm_invoke (i0 + i) c llm_type config
     = Raise e) ->
  snd (process_chunks_from read_pdf b64encode page_range llm_invoke chunks i0 acc
         llm_type config output_filename)
  = snd (handle_chunk_failure
           (acc ++ map (fun j => batch_header_policy config j (succ j)) (seq i0 i))
           output_filename (i0 + i) e).
Proof.
  revert i0 acc i. induction chunks as [|ch rest IH]; intros i0 acc i Hok [c [Hc Hfail]].
  - destruct i; discriminate.
  - cbn [process_chunks_from].
    unfold chunk_result in Hok, Hfail.
    destruct (convert_chunk read_pdf b64encode llm_invoke i0 (data ch) llm_type
                (lit " (" ++ page_range ch ++ lit ")") (i0 =? 0)
                (cfg_remove_header_if_not_first config)
                (cfg_use_structured_messages config) (cfg_extract_text config))
      as [evs r] eqn:Ec.
    destruct i as [|i].
    + simpl in Hc; inversion Hc; subst c. rewrite Nat.add_0_r in Hfail.
      rewrite Ec in Hfail; simpl in Hfail; subst r.
      destruct (handle_chunk_failure acc output_filename i0 e) as [evs' r'] eqn:Eh.
      simpl. rewrite app_nil_r, Nat.add_0_r, Eh. reflexivity.
    + assert (Hr : r = Ok (succ i0)).
      { specialize (Hok 0 ch ltac:(lia) eq_refl).
        rewrite Nat.add_0_r, Ec in Hok. exact Hok. }
      subst r.
      destruct (process_chunks_from read_pdf b64encode page_range llm_invoke rest (S i0)
                  (acc ++ [batch_header_policy config i0 (succ i0)]) llm_type config
                  output_filename) as [evs' r'] eqn:Ep.
      simpl. unfold batch_header_policy in Ep. rewrite Ep. simpl.
      replace (i0 + S i) with (S i0 + i) by lia.
      change r' with (snd (evs', r')). rewrite <- Ep.
      rewrite (IH (S i0) _ i); [| |exists c; split; [exact Hc|]].
      * rewrite <- app_assoc. reflexivity.
      * intros j c' Hj Hc'. replace (S i0 + j) with (i0 + S j) by lia.
        apply (Hok (S j)); [lia | exact Hc'].
      * replace (S i0 + i) with (i0 + S i) by lia. exact Hfail.
Qed.

(** The batch loop from its start: the outcome on the first failing
    chunk [i], after chunks [0 .. i-1] succeeded. *)
Lemma process_chunks_failure chunks i e (succ : nat -> text) :
  (forall j c, j < i -> nth_error chunks j = Some c ->
     chunk_result read_pdf b64encode page_range llm_invoke j c llm_type config
     = Ok (succ j)) ->
  (exists c, nth_error chunks i = Some c /\
     chunk_result read_pdf b64encode page_range llm_invoke i c llm_type config
     = Raise e) ->
  snd (process_chunks read_pdf b64encode page_range llm_invoke chunks
         llm_type config output_filename)
  = if i =? 0
    then inl (PdfConverterException (NoChunkConverted (i + 1)) e)
    else inr (join nl (map (fun j => batch_header_policy config j (succ j)) (seq 0 i))).
Proof.
  intros Hok Hfail. unfold process_chunks.
  rewrite (process_chunks_from_failure chunks 0 [] i e succ); auto.
  destruct i as [|i]; [reflexivity|].
  unfold handle_chunk_failure. simpl. reflexivity.
Qed.

(** [convert] on a document larger than the planned chunk size returns
    what [_process_chunks] returns on the planned chunks. *)
Lemma convert_chunked_outcome page_count max_pages_per_chunk rh retries us ex chunks :
  config = batch_config llm_type max_pages_per_chunk true rh retries us ex ->
  client_ok llm_type = true ->
  cfg_max_pages_per_chunk config < page_count ->
  PdfUtils.split_into_chunks page_count (cfg_max_pages_per_chunk config) = Ok chunks ->
  snd (convert read_pdf b64encode page_range llm_invoke (Some page_count)
         output_filename llm_type max_pages_per_chunk true rh retries us ex)
  = snd (process_chunks read_pdf b64encode page_range llm_invoke chunks
           llm_type config output_filename).
Proof.
  intros Hcfg Hc Hlt Hs. unfold convert. rewrite Hc. cbn [negb].
  rewrite <- Hcfg.
  replace (cfg_auto_chunk config) with true by (subst config; reflexivity).
  apply Nat.ltb_lt in Hlt. rewrite Hlt, Hs. simpl andb; cbv iota.
  destruct (process_chunks _ _ _ _ _ _ _ _) as [evs [e|r]]; reflexivity.
Qed.

(** C1: in a batch [convert] call that processes a planned chunk
    sequence, when chunks [0 .. i-1] succeed and chunk [i] fails, the call
    raises [PdfConverterException] naming chunk [i + 1] (the 1-based number
    of chunk [i]) with the failure as its cause exactly when the
    accumulator of successful, header-policy-applied chunk texts is empty
    (that is, when [i = 0]); otherwise it returns, without raising, the
    newline-joined accumulator. *)
Theorem convert_chunk_failure_outcome page_count max_pages_per_chunk rh retries us ex
    chunks i e (succ : nat -> text) :
  config = batch_config llm_type max_pages_per_chunk true rh retries us ex ->
  client_ok llm_type = true ->
  cfg_max_pages_per_chunk config < page_count ->
  PdfUtils.split_into_chunks page_count (cfg_max_pages_per_chunk config) = Ok chunks ->
  (forall j c, j < i -> nth_error chunks j = Some c ->
     chunk_result read_pdf b64encode page_range llm_invoke j c llm_type config
     = Ok (succ j)) ->
  (exists c, nth_error chunks i = Some c /\
     chunk_result read_pdf b64encode page_range llm_invoke i c llm_type config
     = Raise e) ->
  snd (convert read_pdf b64encode page_range llm_invoke (Some page_count)
         output_filename llm_type max_pages_per_chunk true rh retries us ex)
  = match map (fun j => batch_header_policy config j (succ j)) (seq 0 i) with
    | [] => inl (PdfConverterException (NoChunkConverted (i + 1)) e)
    | accumulator => inr (join nl accumulator)
    end.
Proof.
  intros Hcfg Hc Hlt Hs Hok Hfail.
  rewrite (convert_chunked_outcome page_count max_pages_per_chunk rh retries us ex chunks);
    auto.
  rewrite (process_chunks_failure chunks i e succ); auto.
  destruct i; reflexivity.
Qed.

Lemma observe_app evs evs' :
  yields (evs ++ evs') = yields evs ++ yields evs' /\
  invoked (evs ++ evs') = invoked evs ++ invoked evs' /\
  saved (evs ++ evs') = saved evs ++ saved evs'.
Proof. unfold yields, invoked, saved; rewrite !flat_map_app; auto. Qed.

Ltac observe :=
  repeat (rewrite (proj1 (observe_app _ _)) ||
          rewrite (proj1 (proj2 (observe_app _ _))) ||
          rewrite (proj2 (proj2 (observe_app _ _)))).

(** The streaming loop run from position [i0] with accumulator [acc]:
    when the chunks before position [k] succeed and chunk [k] fails, the
    consumer receives the [k] successes, the provider is invoked for
    positions [i0 .. i0 + k] only, and the only whole-file save is the
    [partial] file of the accumulated texts, when there are any. *)
Lemma stream_from_failure chunks i0 n acc out k e (succ : nat -> text) f :
  filename output_filename = Some f ->
  (forall j c, j < k -> nth_error chunks j = Some c ->
     chunk_result read_pdf b64encode page_range llm_invoke (i0 + j) c llm_type config
     = Ok (succ (i0 + j))) ->
  (exists c, nth_error chunks k = Some c /\
     chunk_result read_pdf b64encode page_range llm_invoke (i0 + k) c llm_type config
     = Raise e) ->
  let evs := stream_from read_pdf b64encode page_range llm_invoke chunks i0 n acc
               llm_type config output_filename out in
  yields evs = map (fun j => stream_header_policy config j (succ j)) (seq i0 k) /\
  invoked evs = seq i0 (S k) /\
  saved evs =
    match acc ++ map (fun j => stream_header_policy config j (succ j)) (seq i0 k) with
    | [] => []
    | l => [(PartialFile f (i0 + k), join nl l)]
    end.
Proof.
  intros Hf. revert i0 acc k.
  induction chunks as [|ch rest IH]; intros i0 acc k Hok [c [Hc Hfail]].
  - destruct k; discriminate.
  - cbn [stream_from].
    unfold chunk_result in Hok, Hfail.
    destruct (convert_chunk read_pdf b64encode llm_invoke i0 (data ch) llm_type
                (lit " (" ++ page_range ch ++ lit ")") (i0 =? 0)
                (cfg_remove_header_if_not_first config)
                (cfg_use_structured_messages config) (cfg_extract_text config))
      as [evs r] eqn:Ec.
    pose proof (f_equal fst Ec) as Hevs; simpl in Hevs; subst evs.
    destruct k as [|k].
    + simpl in Hc; inversion Hc; subst c. rewrite Nat.add_0_r in Hfail.
      rewrite Ec in Hfail; simpl in Hfail; subst r.
      cbv beta iota zeta. rewrite app_nil_r, Nat.add_0_r.
      observe. rewrite Hf. unfold save_partial_results. rewrite Hf.
      destruct acc; repeat split.
    + assert (Hr : r = Ok (succ i0)).
      { specialize (Hok 0 ch ltac:(lia) eq_refl).
        rewrite Nat.add_0_r, Ec in Hok. exact Hok. }
      subst r. cbv beta iota zeta. observe.
      change (if cfg_remove_header_if_not_first config && (0 <? i0)
              then CsvProcessor.remove_header (succ i0) else succ i0)
        with (stream_header_policy config i0 (succ i0)).
      destruct (IH (S i0) (acc ++ [stream_header_policy config i0 (succ i0)]) k)
        as (Hy & Hi & Hs).
      { intros j c' Hj Hc'. replace (S i0 + j) with (i0 + S j) by lia.
        apply (Hok (S j)); [lia | exact Hc']. }
      { exists c; split; [exact Hc|].
        replace (S i0 + k) with (i0 + S k) by lia. exact Hfail. }
      rewrite Hy, Hi, Hs, <- app_assoc.
      replace (S i0 + k) with (i0 + S k) by lia.
      destruct out as [f0|]; [destruct (i0 <? n - 1)|]; simpl; repeat split.
Qed.

(** C3 (as amended): in a [convert_streaming] run with an output path
    designated, when chunks [0 .. k-1] succeed and chunk [k] fails, the
    generator ends by exhaustion without raising; the consumer receives
    exactly the [k] successful texts; the provider is invoked for chunks
    [0 .. k] only; and the only whole-file save is, when [k >= 1], the sink
    [partial_k] holding the [k] texts joined by newline; when [k = 0]
    nothing is saved. *)
Theorem convert_streaming_early_stop page_count max_pages_per_chunk rh retries us ex
    chunks k e (succ : nat -> text) f :
  config = streaming_config max_pages_per_chunk rh retries us ex ->
  output_filename = Some f -> f <> ""%string ->
  client_ok llm_type = true ->
  PdfUtils.split_into_chunks page_count max_pages_per_chunk = Ok chunks ->
  (forall j c, j < k -> nth_error chunks j = Some c ->
     chunk_result read_pdf b64encode page_range llm_invoke j c llm_type config
     = Ok (succ j)) ->
  (exists c, nth_error chunks k = Some c /\
     chunk_result read_pdf b64encode page_range llm_invoke k c llm_type config
     = Raise e) ->
  let run := convert_streaming read_pdf b64encode page_range llm_invoke
               (Some page_count) output_filename llm_type max_pages_per_chunk
               rh retries us ex in
  snd run = None /\
  yields (fst run) = map (fun j => stream_header_policy config j (succ j)) (seq 0 k) /\
  invoked (fst run) = seq 0 (S k) /\
  saved (fst run) =
    match map (fun j => stream_header_policy config j (succ j)) (seq 0 k) with
    | [] => []
    | texts => [(PartialFile f k, join nl texts)]
    end.
Proof.
  intros Hcfg Hout Hne Hc Hs Hok Hfail.
  assert (Hf : filename output_filename = Some f).
  { rewrite Hout; simpl. apply String.eqb_neq in Hne. rewrite Hne. reflexivity. }
  destruct (stream_from_failure chunks 0 (List.length chunks) [] (filename output_filename)
              k e succ f Hf Hok Hfail) as (Hy & Hi & Hsv).
  unfold convert_streaming. rewrite Hc. cbn [negb]. cbv zeta.
  rewrite <- Hcfg.
  replace (cfg_max_pages_per_chunk config) with max_pages_per_chunk
    by (subst config; reflexivity).
  rewrite Hs. cbv iota. rewrite Hf. rewrite Hf in Hy, Hi, Hsv.
  cbn [fst snd]. repeat split; observe.
  - rewrite Hy.
    change (yields [EvOpen (OutFile f)]) with (@nil text).
    change (yields [EvClose (OutFile f)]) with (@nil text).
    rewrite app_nil_r. reflexivity.
  - rewrite Hi.
    change (invoked [EvOpen (OutFile f)]) with (@nil nat).
    change (invoked [EvClose (OutFile f)]) with (@nil nat).
    rewrite app_nil_r. reflexivity.
  - rewrite Hsv.
    change (saved [EvOpen (OutFile f)]) with (@nil (path * text)).
    change (saved [EvClose (OutFile f)]) with (@nil (path * text)).
    rewrite app_nil_r. reflexivity.
Qed.

End Run.

End ConverterFacts.

(** C4 (code defect): [convert] plans with the provider's
    [max_chunk_pages] override while [convert_streaming] plans with the
    caller's [max_pages_per_chunk]: for ["groq"] and [max_pages_per_chunk = 10]
    the batch path uses 5 pages per chunk and the streaming path 10, so on
    a 10-page document with a provider that always answers, the batch run
    invokes the provider on two chunks and the streaming run on one. *)
Theorem streaming_ignores_chunk_override :
  cfg_max_pages_per_chunk (batch_config "groq" 10 true false 3 false false) = 5 /\
  cfg_max_pages_per_chunk (streaming_config 10 false 3 false false) = 10 /\
  invoked (fst (convert (fun _ => None) (fun _ => []) (fun _ => [])
                  (fun _ _ => Response (lit "a,b"))
                  (Some 10) None "groq" 10 true false 3 false false)) = [0; 1] /\
  invoked (fst (convert_streaming (fun _ => None) (fun _ => []) (fun _ => [])
                  (fun _ _ => Response (lit "a,b"))
                  (Some 10) None "groq" 10 false 3 false false)) = [0].
Proof. vm_compute. repeat split. Qed.

(** ** Provider capabilities (config.py, message_builder.py) *)

(** C10: among the registered providers, [supports_structured_messages]
    holds exactly for those whose sdk family is ["openai"] (["openai"] and
    ["openrouter"]); so with [use_structured_messages] set, a chunk for
    ["openrouter"] is built as a two-part structured message whose first
    part is the prompt, never as the flattened string. *)
Theorem structured_messages_openai_family :
  (forall p info, In (p, info) Config.MODEL_CONFIGS ->
     (Config.supports_structured_messages p = true <-> Config.sdk info = "openai"%string)) /\
  Config.supports_structured_messages "openai" = true /\
  Config.supports_structured_messages "openrouter" = true /\
  (forall read_pdf b64encode prompt chunk_data extract_text,
     exists second,
       build_message read_pdf b64encode prompt chunk_data "openrouter" true extract_text
       = StructuredMessage [TextPart prompt; second]).
Proof.
  split; [|split; [reflexivity|split; [reflexivity|]]].
  - intros p info H.
    repeat (destruct H as [H|H]; [inversion H; subst; vm_compute; split;
                                  first [reflexivity | discriminate | intros; reflexivity] |]).
    destruct H.
  - intros read_pdf b64encode prompt chunk_data extract_text.
    unfold build_message.
    change (Config.supports_structured_messages "openrouter") with true. simpl.
    destruct (if extract_text then PdfUtils.extract_text (read_pdf chunk_data) else None)
      as [t|]; [destruct (PdfUtils.truthy t)|]; eexists; reflexivity.
Qed.

(** ** The deterministic path (basic.py) *)

(** C5 (code defect): basic.py never imports [csv], so [pdf_to_csv]
    raises [NameError] at [csv.writer] for every document, after
    [open(output_path, "w")] has left the output file empty: no header row
    and no page rows are written. *)
Theorem pdf_to_csv_missing_csv_import reader_pages dedupe_header preserve_newlines :
  Basic.pdf_to_csv Basic.basic_globals reader_pages dedupe_header preserve_newlines
  = ([], Raise (NameError "csv")).
Proof. reflexivity. Qed.

(** C6 fails as stated: the pages ["HEADER\ncontentA"; "HEADER\ncontentB"]
    do not become ["contentA"; "contentB"]. *)
Lemma masthead_dedupe_short_header_kept :
  Basic.dedupe_pages true [lit "HEADER
contentA"; lit "HEADER
contentB"]
  <> [lit "contentA"; lit "contentB"].
Proof. vm_compute. discriminate. Qed.

(** ** Text extraction (utils.py, [PdfUtils.extract_text]) *)

Lemma filter_truthy_nil pages :
  filter PdfUtils.truthy (map PdfUtils.page_text pages) = [] <->
  Forall (fun p => PdfUtils.page_text p = []) pages.
Proof.
  induction pages as [|p pages IH]; simpl.
  - split; auto.
  - destruct (PdfUtils.page_text p) as [|c t] eqn:E; simpl.
    + rewrite IH. split; [intro H; constructor; auto | intro H; inversion H; auto].
    + split; [discriminate | intro H; inversion H; congruence].
Qed.

(** C7 (as amended): [extract_text] reads a page whose extraction raises
    as an empty page; it returns [None] when the reader fails or when no
    page yields non-empty text, and otherwise the stripped newline-join of
    the non-empty page texts, which is the empty string when all that text
    is whitespace (e.g. a single page reading " "). *)
Theorem extract_text_none_or_stripped :
  PdfUtils.extract_text None = None /\
  (forall pages, PdfUtils.extract_text (Some pages) = None <->
     Forall (fun p => PdfUtils.page_text p = []) pages) /\
  (forall pre post,
     PdfUtils.extract_text (Some (pre ++ ExtractFails :: post))
     = PdfUtils.extract_text (Some (pre ++ Extracted (Some []) :: post))) /\
  (forall pages t, PdfUtils.extract_text (Some pages) = Some t ->
     t = strip (join nl (filter PdfUtils.truthy (map PdfUtils.page_text pages)))) /\
  PdfUtils.extract_text (Some [Extracted (Some (lit " "))]) = Some [].
Proof.
  split; [reflexivity|split; [|split; [|split]]].
  - intro pages. rewrite <- filter_truthy_nil. unfold PdfUtils.extract_text.
    destruct (filter PdfUtils.truthy (map PdfUtils.page_text pages)); split;
      congruence.
  - intros pre post. unfold PdfUtils.extract_text. rewrite !map_app. reflexivity.
  - intros pages t. unfold PdfUtils.extract_text.
    destruct (filter PdfUtils.truthy (map PdfUtils.page_text pages)); congruence.
  - reflexivity.
Qed.

(** C7 fails as stated: a non-[None] result can be the empty string. *)
Lemma extract_text_whitespace_page :
  PdfUtils.extract_text (Some [Extracted (Some (lit " "))]) = Some [].
Proof. reflexivity. Qed.

(** A witness for C1: three one-page chunks; the first converts to
    [a,b], the second raises, so the call returns [a,b]. *)
Lemma convert_chunk_failure_outcome_witness :
  snd (convert (fun _ => None) (fun _ => []) (fun _ => [])
         (fun n _ => if n =? 0 then Response (lit "a,b") else InvokeRaises)
         (Some 3) None "openai" 1 true false 3 false false)
  = inr (lit "a,b").
Proof.
  rewrite (ConverterFacts.convert_chunk_failure_outcome
             (fun _ => None) (fun _ => []) (fun _ => [])
             (fun n _ => if n =? 0 then Response (lit "a,b") else InvokeRaises)
             "openai" (batch_config "openai" 1 true false 3 false false) None
             3 1 false 3 false false
             [mkChunk [0] 1 1 3; mkChunk [1] 2 2 3; mkChunk [2] 3 3 3]
             1 ProviderError (fun _ => lit "a,b")).
  - reflexivity.
  - reflexivity.
  - reflexivity.
  - vm_compute; lia.
  - reflexivity.
  - intros j c Hj Hc. destruct j as [|j]; [|lia].
    simpl in Hc. inversion Hc. reflexivity.
  - exists (mkChunk [1] 2 2 3). split; reflexivity.
Defined.

(** A witness for C2: seven pages in chunks of three. *)
Lemma split_into_chunks_partition_witness :
  exists chunks, PdfUtils.split_into_chunks 7 3 = Ok chunks /\
                 flat_map page_span chunks = seq 1 7.
Proof.
  destruct (PlanFacts.split_into_chunks_partition 7 3 ltac:(lia) ltac:(lia))
    as (chunks & Hs & _ & _ & Hc).
  exists chunks. split; [exact Hs | exact Hc].
Defined.

(** A witness for C3: three one-page chunks, an output path, the first
    chunk converts and the second raises: the sink [partial_1] holds the
    first chunk's text. *)
Lemma convert_streaming_early_stop_witness :
  saved (fst (convert_streaming (fun _ => None) (fun _ => []) (fun _ => [])
                (fun n _ => if n =? 0 then Response (lit "a,b") else InvokeRaises)
                (Some 3) (Some "out.csv"%string) "openai" 1 false 3 false false))
  = [(PartialFile "out.csv" 1, lit "a,b")].
Proof.
  pose proof (ConverterFacts.convert_streaming_early_stop
             (fun _ => None) (fun _ => []) (fun _ => [])
             (fun n _ => if n =? 0 then Response (lit "a,b") else InvokeRaises)
             "openai" (streaming_config 1 false 3 false false) (Some "out.csv"%string)
             3 1 false 3 false false
             [mkChunk [0] 1 1 3; mkChunk [1] 2 2 3; mkChunk [2] 3 3 3]
             1 ProviderError (fun _ => lit "a,b") "out.csv"%string) as H.
  destruct H as (_ & _ & _ & H).
  - reflexivity.
  - reflexivity.
  - discriminate.
  - reflexivity.
  - reflexivity.
  - intros j c Hj Hc. destruct j as [|j]; [|lia].
    simpl in Hc. inversion Hc. reflexivity.
  - exists (mkChunk [1] 2 2 3). split; reflexivity.
  - exact H.
Defined.

(** C3 fails as stated for [k = 0]: when the very first chunk fails, the
    run yields nothing and no [partial_0] sink is written. *)
Lemma convert_streaming_first_chunk_no_partial :
  let run := convert_streaming (fun _ => None) (fun _ => []) (fun _ => [])
               (fun _ _ => InvokeRaises)
               (Some 2) (Some "out.csv"%string) "openai" 1 false 3 false false in
  yields (fst run) = [] /\ saved (fst run) = [].
Proof. vm_compute. split; reflexivity. Qed.

(** A witness for C7: a single page reading " hi " extracts to "hi". *)
Lemma extract_text_none_or_stripped_witness :
  lit "hi" = strip (join nl (filter PdfUtils.truthy
                               (map PdfUtils.page_text [Extracted (Some (lit " hi "))]))).
Proof.
  apply (proj1 (proj2 (proj2 (proj2 extract_text_none_or_stripped)))).
  vm_compute. reflexivity.
Defined.

(** A witness for C8: cleaning a fenced block and cleaning its result. *)
Lemma clean_response_idempotent_witness :
  CsvProcessor.clean_response (lit "```csv
a,b
```") = Ok (lit "a,b") /\
  CsvProcessor.clean_response (lit "a,b") = Ok (lit "a,b").
Proof.
  split; [vm_compute; reflexivity|].
  apply (CsvFacts.clean_response_idempotent (lit "```csv
a,b
```")).
  vm_compute. reflexivity.
Defined.

(** A witness for C9: ["x\ny"] becomes ["y"]. *)
Lemma remove_header_first_line_witness :
  CsvProcessor.remove_header (lit "x" ++ nl :: lit "y") = lit "y".
Proof.
  apply (proj1 (proj2 CsvFacts.remove_header_first_line)).
  simpl. intros [H|H]; [discriminate|exact H].
Defined.

(** A witness for C10: the ["groq"] entry, whose sdk family is not
    ["openai"]. *)
Lemma structured_messages_openai_family_witness :
  exists info, In ("groq"%string, info) Config.MODEL_CONFIGS /\
    (Config.supports_structured_messages "groq" = true <->
     Config.sdk info = "openai"%string).
Proof.
  eexists. split.
  - right. right. left. reflexivity.
  - apply (proj1 structured_messages_openai_family). right. right. left. reflexivity.
Defined.

(* ------------------------------------------------------------------ *)
(** * Further properties of the modules *)

Module TextFacts.
Import StrFacts CsvFacts.

Lemma split_pieces s : Forall (fun x => ~ In nl x) (split nl s).
Proof.
  induction s as [|c s IH]; cbn [split].
  - constructor; [intros []|constructor].
  - destruct (ascii_eqb c nl) eqn:E.
    + constructor; [intros []|exact IH].
    + destruct (split nl s) as [|l ls]; [constructor; [|constructor]|].
      * intros [H|[]]. subst. rewrite ascii_eqb_refl in E. discriminate.
      * inversion IH; subst. constructor; [|assumption].
        intros [H|H]; [subst; rewrite ascii_eqb_refl in E; discriminate|auto].
Qed.

Lemma split_join xs : xs <> [] -> Forall (fun x => ~ In nl x) xs ->
  split nl (join nl xs) = xs.
Proof.
  induction xs as [|x xs IH]; intros Hne Hf; [congruence|].
  inversion Hf; subst.
  destruct xs as [|y ys].
  - apply split_no_nl. assumption.
  - change (join nl (x :: y :: ys)) with (x ++ nl :: join nl (y :: ys)).
    rewrite split_first_line by assumption. f_equal. apply IH; [discriminate|assumption].
Qed.

Lemma startswith_firstn s m : startswith s (firstn m s) = true.
Proof.
  revert m; induction s as [|c s IH]; intros [|m]; simpl; auto.
  rewrite ascii_eqb_refl. apply IH.
Qed.

Lemma startswith_trans s p q :
  startswith s p = true -> startswith p q = true -> startswith s q = true.
Proof.
  revert s q; induction p as [|c p IH]; intros s q H1 H2.
  - destruct q; [destruct s; reflexivity|discriminate].
  - destruct s as [|d s]; [discriminate|]. destruct q as [|e q]; [reflexivity|].
    simpl in *. apply andb_true_iff in H1 as [E1 H1]. apply andb_true_iff in H2 as [E2 H2].
    apply ascii_eqb_true in E1, E2. subst. rewrite ascii_eqb_refl. simpl. eauto.
Qed.

Lemma startswith_firstn_of s p k :
  startswith s p = true -> startswith s (firstn k p) = true.
Proof.
  intro H. eapply startswith_trans; [exact H|]. apply startswith_firstn.
Qed.

Lemma match_len_spec k s0 s :
  firstn (Basic.match_len k s0 s) s0 = firstn (Basic.match_len k s0 s) s /\
  Basic.match_len k s0 s <= k.
Proof.
  revert s0 s; induction k as [|k IH]; intros s0 s; [simpl; split; auto|].
  destruct s0 as [|c0 s0], s as [|c s]; simpl; try (split; [reflexivity|lia]).
  destruct (ascii_eqb c0 c) eqn:E; simpl; [|split; auto; lia].
  apply ascii_eqb_true in E; subst.
  destruct (IH s0 s) as [H1 H2]. split; [f_equal; exact H1 | lia].
Qed.

Lemma prefix_scan_spec strings max_len s0 k :
  exists m, m <= k /\ Basic.prefix_scan max_len s0 k strings = firstn m s0 /\
    Forall (fun s => startswith s (firstn m s0) = true) strings.
Proof.
  revert k; induction strings as [|s rest IH]; intro k.
  - exists k. repeat split; auto.
  - cbn [Basic.prefix_scan].
    destruct (match_len_spec k s0 (firstn max_len s)) as [Hf Hk].
    set (i := Basic.match_len k s0 (firstn max_len s)) in *.
    destruct (i =? 0) eqn:Ei.
    + exists 0. split; [lia|split; [reflexivity|]].
      constructor; [destruct s; reflexivity|].
      apply Forall_forall. intros x _; destruct x; reflexivity.
    + destruct (IH i) as (m & Hm & Heq & Hall).
      exists m. split; [lia|split; [exact Heq|]]. constructor; [|exact Hall].
      replace (firstn m s0) with (firstn m (firstn i s0))
        by (rewrite firstn_firstn; f_equal; lia).
      rewrite Hf, !firstn_firstn. apply startswith_firstn.
Qed.

Lemma common_prefix_of_all strings max_len :
  List.length (Basic.find_common_prefix strings max_len) <= max_len /\
  Forall (fun s => startswith s (Basic.find_common_prefix strings max_len) = true) strings.
Proof.
  destruct strings as [|s rest]; [split; [simpl; lia|constructor]|].
  unfold Basic.find_common_prefix.
  destruct (prefix_scan_spec rest max_len (firstn max_len s) (List.length (firstn max_len s)))
    as (m & Hm & Heq & Hall).
  rewrite Heq. split.
  - rewrite !length_firstn. lia.
  - constructor; [|exact Hall]. rewrite firstn_firstn. apply startswith_firstn.
Qed.

(** [_find_common_prefix] returns a prefix of every string it is given,
    of at most [max_len] characters. *)
Theorem find_common_prefix_prefix_of_all strings max_len :
  List.length (Basic.find_common_prefix strings max_len) <= max_len /\
  Forall (fun s => startswith s (Basic.find_common_prefix strings max_len) = true) strings.
Proof. exact (common_prefix_of_all strings max_len). Qed.

(** [pdf_to_text] gives one line per page read: when no page text holds
    a line break, splitting the result at line breaks gives back the page
    texts, a page whose extraction failed being an empty line. *)
Theorem pdf_to_text_one_line_per_page pages :
  pages <> [] -> Forall (fun p => ~ In nl (PdfUtils.page_text p)) pages ->
  split nl (Basic.pdf_to_text pages) = map PdfUtils.page_text pages.
Proof.
  intros Hne Hf. unfold Basic.pdf_to_text. apply split_join.
  - destruct pages; simpl; congruence.
  - apply Forall_map. exact Hf.
Qed.

(** The masthead dedupe keeps the number of pages, and either leaves the
    pages unchanged or cuts from every page one and the same prefix, which
    every page starts with and which trims to at least 10 characters. *)
Theorem dedupe_pages_common_cut dedupe_header pages :
  List.length (Basic.dedupe_pages dedupe_header pages) = List.length pages /\
  (Basic.dedupe_pages dedupe_header pages = pages \/
   exists prefix, 10 <= List.length (strip prefix) /\
     Forall (fun p => startswith p prefix = true) pages /\
     Basic.dedupe_pages dedupe_header pages = map (skipn (List.length prefix)) pages).
Proof.
  unfold Basic.dedupe_pages.
  destruct (dedupe_header && (1 <? List.length pages)); [|split; auto].
  destruct (common_prefix_of_all pages 1000) as [_ Hall].
  set (p0 := Basic.find_common_prefix pages 1000) in *.
  cbv zeta.
  assert (Hk : forall k, Forall (fun p => startswith p (firstn k p0) = true) pages).
  { intro k. eapply Forall_impl; [|exact Hall]. intros p Hp.
    apply startswith_firstn_of; exact Hp. }
  match goal with |- context [10 <=? List.length (strip ?q)] =>
    assert (Hq : Forall (fun p => startswith p q = true) pages);
    [destruct (contains p0 [nl]); [destruct (rfind p0 nl); auto|]; auto|];
    set (p1 := q) in * end.
  destruct (10 <=? List.length (strip p1)) eqn:E; [|split; auto].
  assert (Hmap : map (fun p => if startswith p p1 then skipn (List.length p1) p else p) pages
                 = map (skipn (List.length p1)) pages).
  { apply map_ext_in. intros p Hp. rewrite Forall_forall in Hq. rewrite (Hq p Hp). reflexivity. }
  rewrite Hmap. split; [apply length_map|].
  right. exists p1. split; [apply Nat.leb_le; exact E|split; [exact Hq|reflexivity]].
Qed.

(** ** [_normalize_text] *)

Lemma collapse_no_adjacent p r (Hr : p r = true) s : forall b,
  no_adjacent p (Basic.collapse_runs p r b s) = true /\
  (b = true -> forall c t, Basic.collapse_runs p r b s = c :: t -> p c = false).
Proof.
  induction s as [|c s IH]; intro b; cbn [Basic.collapse_runs].
  - split; [reflexivity|discriminate].
  - destruct (IH true) as [H1 H2]. destruct (IH false) as [H3 _].
    destruct (p c) eqn:Ec; [destruct b|].
    + split; [exact H1|intros _; exact (H2 eq_refl)].
    + split; [|discriminate].
      destruct (Basic.collapse_runs p r true s) as [|d t] eqn:E; [reflexivity|].
      change (negb (p r && p d) && no_adjacent p (d :: t) = true).
      rewrite H1. rewrite (H2 eq_refl d t) by (first [reflexivity|exact E]). rewrite andb_false_r.
      reflexivity.
    + split; [|intros _ c' t' H; inversion H; subst; exact Ec].
      destruct (Basic.collapse_runs p r false s) as [|d t] eqn:E; [reflexivity|].
      change (negb (p c && p d) && no_adjacent p (d :: t) = true).
      rewrite H3, Ec. reflexivity.
Qed.

Lemma collapse_in p r b s c :
  In c (Basic.collapse_runs p r b s) -> c = r \/ (In c s /\ p c = false).
Proof.
  revert b; induction s as [|d s IH]; intros b H; cbn [Basic.collapse_runs] in H.
  - destruct H.
  - destruct (p d) eqn:Ed; [destruct b|].
    + destruct (IH _ H) as [H'|[H' H'']]; auto. right; split; [right|]; auto.
    + destruct H as [H|H]; [left; auto|].
      destruct (IH _ H) as [H'|[H' H'']]; auto. right; split; [right|]; auto.
    + destruct H as [H|H]; [subst; right; split; [left|]; auto|].
      destruct (IH _ H) as [H'|[H' H'']]; auto. right; split; [right|]; auto.
Qed.

Lemma no_adjacent_app_l p a s : no_adjacent p (a ++ s) = true -> no_adjacent p a = true.
Proof.
  induction a as [|c a IH]; [reflexivity|].
  destruct a as [|d a]; [reflexivity|].
  cbn [app no_adjacent]. intro H. apply andb_true_iff in H as [H1 H2].
  rewrite H1. simpl. apply IH. exact H2.
Qed.

Lemma no_adjacent_app_r p a s : no_adjacent p (a ++ s) = true -> no_adjacent p s = true.
Proof.
  induction a as [|c a IH]; [auto|].
  intro H. apply IH. cbn [app] in H.
  destruct (a ++ s) as [|d t]; [reflexivity|].
  cbn [no_adjacent] in H. apply andb_true_iff in H as [_ H]. exact H.
Qed.

Lemma strip_infix s : exists a b, s = a ++ strip s ++ b.
Proof.
  destruct (lstrip_suffix s) as [a Ha].
  destruct (lstrip_suffix (rev (lstrip s))) as [b Hb].
  exists a, (rev b). unfold strip, rstrip.
  rewrite Ha at 1. f_equal.
  rewrite <- (rev_involutive (lstrip s)) at 1. rewrite Hb at 1.
  rewrite rev_app_distr. reflexivity.
Qed.

(** [_normalize_text(text)] (newlines not preserved) returns text whose
    only whitespace characters are single spaces, never two of them next
    to each other, with no leading or trailing whitespace. *)
Theorem normalize_text_single_spaces t :
  let u := Basic.normalize_text t false in
  (forall c, In c u -> isspace c = true -> c = " "%char) /\
  no_adjacent isspace u = true /\ strip u = u.
Proof.
  cbv zeta. unfold Basic.normalize_text. cbv zeta. cbn iota.
  set (x := Basic.collapse_runs isspace " "%char false (Basic.crlf_to_lf t)).
  destruct (strip_infix x) as (a & b & Hab).
  split; [|split; [|apply strip_idem]].
  - intros c Hc Hs.
    assert (Hx : In c x) by (rewrite Hab; apply in_or_app; right; apply in_or_app; left; exact Hc).
    destruct (collapse_in _ _ _ _ _ Hx) as [H|[_ H]]; [exact H|congruence].
  - destruct (collapse_no_adjacent isspace " "%char eq_refl (Basic.crlf_to_lf t) false) as [H _].
    fold x in H. rewrite Hab in H.
    apply no_adjacent_app_r in H. apply no_adjacent_app_l in H. exact H.
Qed.

(** [_normalize_text(text, preserve_newlines=True)] returns text with no
    two line breaks next to each other and no leading or trailing
    whitespace. *)
Theorem normalize_text_single_newlines t :
  let u := Basic.normalize_text t true in
  no_adjacent (ascii_eqb nl) u = true /\ strip u = u.
Proof.
  cbv zeta. unfold Basic.normalize_text. cbv zeta. cbn iota.
  set (x := Basic.collapse_runs (ascii_eqb nl) nl false (Basic.crlf_to_lf t)).
  destruct (strip_infix x) as (a & b & Hab).
  split; [|apply strip_idem].
  destruct (collapse_no_adjacent (ascii_eqb nl) nl (ascii_eqb_refl nl) (Basic.crlf_to_lf t) false)
    as [H _].
  fold x in H. rewrite Hab in H.
  apply no_adjacent_app_r in H. apply no_adjacent_app_l in H. exact H.
Qed.

(** ** [CsvProcessor] *)

Lemma clean_response_ok x r :
  CsvProcessor.clean_response x = Ok r ->
  r <> [] /\ contains r (lit "```") = false /\ strip r = r.
Proof.
  unfold CsvProcessor.clean_response. destruct x as [|c x]; [discriminate|].
  set (z := replace_empty (c :: x) (lit "```csv")).
  pose proof (cleaned_no_fence z) as Hz.
  pose proof (strip_idem (replace_empty z (lit "```"))) as Hs.
  set (r0 := strip (replace_empty z (lit "```"))) in *.
  intro H. assert (Hr : r0 = r /\ r <> []) by (destruct r0; inversion H; split; congruence).
  destruct Hr as [<- Hne]. rewrite lit_fence. auto.
Qed.

(** What [clean_response] returns is non-empty, holds no fence marker
    and has no leading or trailing whitespace. *)
Theorem clean_response_output x r :
  CsvProcessor.clean_response x = Ok r ->
  r <> [] /\ contains r (lit "```") = false /\ strip r = r.
Proof. apply clean_response_ok. Qed.

Lemma contains_space_bt x q : forallb isspace x = true -> contains x (bt :: q) = false.
Proof.
  induction x as [|c x IH]; intro H; [reflexivity|].
  simpl in H. apply andb_true_iff in H as [Hc H].
  rewrite contains_cons, IH by exact H. rewrite orb_false_r. cbn [startswith].
  destruct (ascii_eqb bt c) eqn:E; [|reflexivity].
  apply ascii_eqb_true in E. subst. discriminate.
Qed.

Lemma lstrip_all_space x : forallb isspace x = true -> lstrip x = [].
Proof.
  induction x as [|c x IH]; intro H; [reflexivity|].
  simpl in H |- *. apply andb_true_iff in H as [Hc H]. rewrite Hc. auto.
Qed.

(** A non-empty response made only of whitespace is rejected as an empty
    CSV after cleaning. *)
Theorem clean_response_blank x :
  x <> [] -> forallb isspace x = true ->
  CsvProcessor.clean_response x
  = Raise (ValueError (lit "LLM returned empty CSV after cleaning")).
Proof.
  intros Hne Hs. destruct x as [|c x]; [congruence|].
  unfold CsvProcessor.clean_response, replace_empty. cbv zeta.
  rewrite (replace_absent _ (lit "```csv") (c :: x)) by (apply contains_space_bt; exact Hs).
  rewrite (replace_absent _ (lit "```") (c :: x)) by (apply contains_space_bt; exact Hs).
  unfold strip. rewrite (lstrip_all_space (c :: x) Hs). reflexivity.
Qed.

(** When a text has several lines, [remove_header] drops exactly its
    first line: splitting the result at line breaks gives the lines of the
    input after the first. *)


End TextFacts.


Module ProviderFacts.


(** [supports_structured_messages] compares the lower-cased name with the
    keys of the ["openai"] sdk family, so it accepts ["OpenRouter"],
    while [create_client], which looks the name up as given, rejects it. *)
Theorem supports_structured_messages_case_insensitive llm_type getenv max_retries t timeout :
  Config.supports_structured_messages llm_type =
    String.eqb (lower llm_type) "openai" || String.eqb (lower llm_type) "openrouter" /\
  Config.supports_structured_messages "OpenRouter" = true /\
  Config.create_client getenv "OpenRouter" max_retries t timeout
    = Raise (ValueError (lit "Unknown llm_type")).
Proof.
  split; [|split; reflexivity].
  unfold Config.supports_structured_messages. simpl. rewrite orb_false_r. reflexivity.
Qed.


Lemma find_app {A} (f : A -> bool) l l' :
  find f (l ++ l') = match find f l with Some x => Some x | None => find f l' end.
Proof.
  induction l as [|x l IH]; simpl; auto. destruct (f x); auto.
Qed.

(** [_get_or_create_client] caches the first client it creates for a
    name: a later call for that name returns the cached client, built with
    the [max_retries] of the first call, whatever [max_retries] it is
    given, and leaves the cache unchanged. *)
Theorem get_or_create_client_cached getenv getenv' llms llm_type r1 r2 c llms' :
  dict_get llms llm_type = None ->
  get_or_create_client getenv llms llm_type r1 = Ok (c, llms') ->
  get_or_create_client getenv' llms' llm_type r2 = Ok (c, llms') /\
  dict_get (Config.client_kwargs c) "max_retries" = Some (Config.KNat r1).
Proof.
  intros Hn H. unfold get_or_create_client in H. rewrite Hn in H.
  destruct (Config.create_client getenv llm_type r1 0 120) as [c0|e] eqn:Ec;
    [|discriminate].
  inversion H; subst c0 llms'. split.
  - unfold get_or_create_client, dict_get. rewrite find_app.
    unfold dict_get in Hn.
    destruct (find (fun '(k', _) => String.eqb llm_type k') llms) as [[k v]|];
      [discriminate|].
    simpl. rewrite String.eqb_refl. reflexivity.
  - unfold Config.create_client in Ec.
    destruct (Config.lookup llm_type) as [info|]; [|discriminate].
    inversion Ec; subst c.
    destruct (Config.api_base info), (Config.api_key_env info);
      repeat match goal with |- context [if ?b then _ else _] => destruct b end;
      reflexivity.
Qed.

End ProviderFacts.

Module RunFacts.
Import StrFacts ConverterFacts TextFacts.

Lemma invocations_app evs evs' :
  invocations (evs ++ evs') = invocations evs ++ invocations evs'.
Proof. unfold invocations. apply flat_map_app. Qed.

Lemma written_app f evs evs' : written f (evs ++ evs') = written f evs ++ written f evs'.
Proof. unfold written. apply flat_map_app. Qed.

Ltac observe_all :=
  repeat (rewrite (proj1 (observe_app _ _)) ||
          rewrite (proj1 (proj2 (observe_app _ _))) ||
          rewrite (proj2 (proj2 (observe_app _ _))) ||
          rewrite invocations_app || rewrite written_app).

Section Runs.
Variable read_pdf : pdf_doc -> option (list page_extract).
Variable b64encode : pdf_doc -> text.
Variable page_range : PdfChunk -> text.
Variable llm_invoke : nat -> HumanMessage -> response.
Variable llm_type : string.

Lemma convert_chunk_invoked n d lt ci fst_chunk rh us ex :
  invoked (fst (convert_chunk read_pdf b64encode llm_invoke n d lt ci fst_chunk rh us ex)) = [n].
Proof. reflexivity. Qed.

Lemma convert_chunk_saved n d lt ci fst_chunk rh us ex :
  saved (fst (convert_chunk read_pdf b64encode llm_invoke n d lt ci fst_chunk rh us ex)) = [].
Proof. reflexivity. Qed.

Lemma convert_chunk_yields n d lt ci fst_chunk rh us ex :
  yields (fst (convert_chunk read_pdf b64encode llm_invoke n d lt ci fst_chunk rh us ex)) = [].
Proof. reflexivity. Qed.

Lemma convert_chunk_written f n d lt ci fst_chunk rh us ex :
  written f (fst (convert_chunk read_pdf b64encode llm_invoke n d lt ci fst_chunk rh us ex)) = [].
Proof. reflexivity. Qed.

Lemma handle_chunk_failure_invoked acc out i e :
  invoked (fst (handle_chunk_failure acc out i e)) = [].
Proof.
  unfold handle_chunk_failure, save_partial_results.
  destruct acc; [reflexivity|]. destruct (filename out); reflexivity.
Qed.

Lemma chunk_result_nonempty i c config t :
  chunk_result read_pdf b64encode page_range llm_invoke i c llm_type config = Ok t ->
  t <> [].
Proof.
  unfold chunk_result, convert_chunk. cbv beta zeta. cbn [snd].
  destruct (llm_invoke _ _); try discriminate.
  intro H. exact (proj1 (clean_response_ok _ _ H)).
Qed.

(** The batch loop and the streaming loop differ in their header test
    ([and csv_data] in the batch loop only), but apply the same header
    policy to every text [_convert_chunk] returns, since it is never
    empty. *)
Theorem batch_stream_header_policy_agree i c config t :
  chunk_result read_pdf b64encode page_range llm_invoke i c llm_type config = Ok t ->
  batch_header_policy config i t = stream_header_policy config i t.
Proof.
  intro H. apply chunk_result_nonempty in H.
  unfold batch_header_policy, stream_header_policy.
  destruct t as [|a t]; [congruence|]. cbn [PdfUtils.truthy]. rewrite andb_true_r. reflexivity.
Qed.

Lemma process_chunks_from_success config out chunks i0 acc (succ : nat -> text) :
  (forall j c, nth_error chunks j = Some c ->
     chunk_result read_pdf b64encode page_range llm_invoke (i0 + j) c llm_type config
     = Ok (succ (i0 + j))) ->
  let run := process_chunks_from read_pdf b64encode page_range llm_invoke chunks i0 acc
               llm_type config out in
  snd run = inr (join nl (acc ++ map (fun j => batch_header_policy config j (succ j))
                                    (seq i0 (List.length chunks)))) /\
  invoked (fst run) = seq i0 (List.length chunks) /\
  saved (fst run) = [].
Proof.
  revert i0 acc; induction chunks as [|ch rest IH]; intros i0 acc Hok.
  - cbn. rewrite app_nil_r. repeat split.
  - cbn [process_chunks_from].
    unfold chunk_result in Hok.
    destruct (convert_chunk read_pdf b64encode llm_invoke i0 (data ch) llm_type
                (lit " (" ++ page_range ch ++ lit ")") (i0 =? 0)
                (cfg_remove_header_if_not_first config)
                (cfg_use_structured_messages config) (cfg_extract_text config))
      as [evs r] eqn:Ec.
    assert (Hr : r = Ok (succ i0)).
    { specialize (Hok 0 ch eq_refl). rewrite Nat.add_0_r, Ec in Hok. exact Hok. }
    subst r. pose proof (f_equal fst Ec) as Hevs; cbn [fst] in Hevs; subst evs.
    cbv beta iota zeta.
    change (if cfg_remove_header_if_not_first config && (0 <? i0) && PdfUtils.truthy (succ i0)
            then CsvProcessor.remove_header (succ i0) else succ i0)
      with (batch_header_policy config i0 (succ i0)).
    destruct (IH (S i0) (acc ++ [batch_header_policy config i0 (succ i0)])) as (H1 & H2 & H3).
    { intros j c Hc. replace (S i0 + j) with (i0 + S j) by lia. apply (Hok (S j)). exact Hc. }
    destruct (process_chunks_from read_pdf b64encode page_range llm_invoke rest (S i0)
                (acc ++ [batch_header_policy config i0 (succ i0)]) llm_type config out)
      as [evs' r'] eqn:Ep.
    cbn [fst snd] in *. observe_all. rewrite H1, H2, H3, convert_chunk_invoked,
      convert_chunk_saved.
    cbn [List.length seq map]. rewrite <- app_assoc. repeat split.
Qed.

(** [convert] on a document larger than the effective chunk size: the
    events of [_process_chunks], then the save of the output file when
    the outcome is a text. *)
Lemma convert_chunked_run out page_count mppc rh retries us ex chunks :
  client_ok llm_type = true ->
  Config.get_max_chunk_pages llm_type mppc < page_count ->
  PdfUtils.split_into_chunks page_count (Config.get_max_chunk_pages llm_type mppc) = Ok chunks ->
  convert read_pdf b64encode page_range llm_invoke (Some page_count) out llm_type mppc true
    rh retries us ex
  = let pc := process_chunks read_pdf b64encode page_range llm_invoke chunks llm_type
                (batch_config llm_type mppc true rh retries us ex) out in
    (fst pc ++ match snd pc with
               | inr r => match filename out with
                          | Some f => [EvSave (OutFile f) r]
                          | None => [] end
               | inl _ => [] end, snd pc).
Proof.
  intros Hc Hlt Hs. unfold convert. rewrite Hc. cbn [negb]. cbv zeta.
  replace (cfg_auto_chunk (batch_config llm_type mppc true rh retries us ex)) with true
    by reflexivity.
  replace (cfg_max_pages_per_chunk (batch_config llm_type mppc true rh retries us ex))
    with (Config.get_max_chunk_pages llm_type mppc) by reflexivity.
  apply Nat.ltb_lt in Hlt. rewrite Hlt, Hs. cbn [andb].
  destruct (process_chunks _ _ _ _ _ _ _ _) as [evs [e|r]]; cbn [fst snd];
    [rewrite app_nil_r|]; reflexivity.
Qed.

(** When every planned chunk converts, batch [convert] returns the
    newline-joined header-policy texts of all chunks, invokes the
    provider once per chunk in order, and saves that text to the output
    file (when one is named) and nowhere else. *)
Theorem convert_all_chunks_succeed out page_count mppc rh retries us ex chunks
    (succ : nat -> text) :
  client_ok llm_type = true ->
  Config.get_max_chunk_pages llm_type mppc < page_count ->
  PdfUtils.split_into_chunks page_count (Config.get_max_chunk_pages llm_type mppc) = Ok chunks ->
  (forall j c, nth_error chunks j = Some c ->
     chunk_result read_pdf b64encode page_range llm_invoke j c llm_type
       (batch_config llm_type mppc true rh retries us ex) = Ok (succ j)) ->
  let run := convert read_pdf b64encode page_range llm_invoke (Some page_count) out llm_type
               mppc true rh retries us ex in
  let r := join nl (map (fun j => batch_header_policy
                                    (batch_config llm_type mppc true rh retries us ex) j (succ j))
                        (seq 0 (List.length chunks))) in
  snd run = inr r /\ invoked (fst run) = seq 0 (List.length chunks) /\
  saved (fst run) = match filename out with Some f => [(OutFile f, r)] | None => [] end.
Proof.
  intros Hc Hlt Hs Hok. cbv zeta.
  rewrite (convert_chunked_run out page_count mppc rh retries us ex chunks Hc Hlt Hs).
  cbv zeta. unfold process_chunks.
  destruct (process_chunks_from_success (batch_config llm_type mppc true rh retries us ex)
              out chunks 0 [] succ (fun j c H => Hok j c H)) as (H1 & H2 & H3).
  destruct (process_chunks_from read_pdf b64encode page_range llm_invoke chunks 0 []
              llm_type (batch_config llm_type mppc true rh retries us ex) out) as [evs r].
  cbn [fst snd] in *. subst r. cbn [app].
  split; [reflexivity|]. observe_all. rewrite H2, H3.
  destruct (filename out); cbn [invoked saved flat_map app];
    rewrite ?app_nil_r; split; reflexivity.
Qed.

Lemma process_chunks_from_failure_events config out chunks i0 acc i e (succ : nat -> text) :
  (forall j c, j < i -> nth_error chunks j = Some c ->
     chunk_result read_pdf b64encode page_range llm_invoke (i0 + j) c llm_type config
     = Ok (succ (i0 + j))) ->
  (exists c, nth_error chunks i = Some c /\
     chunk_result read_pdf b64encode page_range llm_invoke (i0 + i) c llm_type config
     = Raise e) ->
  let run := process_chunks_from read_pdf b64encode page_range llm_invoke chunks i0 acc
               llm_type config out in
  invoked (fst run) = seq i0 (S i) /\
  saved (fst run) =
    saved (fst (handle_chunk_failure
                  (acc ++ map (fun j => batch_header_policy config j (succ j)) (seq i0 i))
                  out (i0 + i) e)).
Proof.
  revert i0 acc i. induction chunks as [|ch rest IH]; intros i0 acc i Hok [c [Hc Hfail]].
  - destruct i; discriminate.
  - cbn [process_chunks_from].
    unfold chunk_result in Hok, Hfail.
    destruct (convert_chunk read_pdf b64encode llm_invoke i0 (data ch) llm_type
                (lit " (" ++ page_range ch ++ lit ")") (i0 =? 0)
                (cfg_remove_header_if_not_first config)
                (cfg_use_structured_messages config) (cfg_extract_text config))
      as [evs r] eqn:Ec.
    pose proof (f_equal fst Ec) as Hevs; cbn [fst] in Hevs; subst evs.
    destruct i as [|i].
    + cbn in Hc; inversion Hc; subst c. rewrite Nat.add_0_r in Hfail.
      rewrite Ec in Hfail; cbn [snd] in Hfail; subst r.
      cbv beta iota zeta.
      rewrite app_nil_r, Nat.add_0_r.
      destruct (handle_chunk_failure acc out i0 e) as [evs' r'] eqn:Eh.
      cbn [fst]. pose proof (handle_chunk_failure_invoked acc out i0 e) as Hh.
      rewrite Eh in Hh. cbn [fst] in Hh. observe_all.
      rewrite convert_chunk_invoked, Hh, convert_chunk_saved.
      split; reflexivity.
    + assert (Hr : r = Ok (succ i0)).
      { specialize (Hok 0 ch ltac:(lia) eq_refl).
        rewrite Nat.add_0_r, Ec in Hok. exact Hok. }
      subst r. cbv beta iota zeta.
      change (if cfg_remove_header_if_not_first config && (0 <? i0) && PdfUtils.truthy (succ i0)
              then CsvProcessor.remove_header (succ i0) else succ i0)
        with (batch_header_policy config i0 (succ i0)).
      destruct (IH (S i0) (acc ++ [batch_header_policy config i0 (succ i0)]) i) as (H1 & H2).
      { intros j c' Hj Hc'. replace (S i0 + j) with (i0 + S j) by lia.
        apply (Hok (S j)); [lia | exact Hc']. }
      { exists c; split; [exact Hc|].
        replace (S i0 + i) with (i0 + S i) by lia. exact Hfail. }
      destruct (process_chunks_from read_pdf b64encode page_range llm_invoke rest (S i0)
                  (acc ++ [batch_header_policy config i0 (succ i0)]) llm_type config out)
        as [evs' r'] eqn:Ep.
      cbn [fst] in *. observe_all. rewrite H1, H2, convert_chunk_invoked,
        convert_chunk_saved.
      replace (S i0 + i) with (i0 + S i) by lia.
      cbn [seq map]. rewrite <- app_assoc. split; reflexivity.
Qed.

(** When chunk [i >= 1] of a batch [convert] fails after chunks
    [0 .. i-1] converted and an output file [f] is named, the provider is
    not invoked after chunk [i], and the same newline-joined text is saved
    three times: to [f.partial_i], to [f.incomplete] and to [f] itself,
    and returned. *)
Theorem convert_partial_failure_saves out f page_count mppc rh retries us ex chunks i e
    (succ : nat -> text) :
  filename out = Some f ->
  client_ok llm_type = true ->
  Config.get_max_chunk_pages llm_type mppc < page_count ->
  PdfUtils.split_into_chunks page_count (Config.get_max_chunk_pages llm_type mppc) = Ok chunks ->
  0 < i ->
  (forall j c, j < i -> nth_error chunks j = Some c ->
     chunk_result read_pdf b64encode page_range llm_invoke j c llm_type
       (batch_config llm_type mppc true rh retries us ex) = Ok (succ j)) ->
  (exists c, nth_error chunks i = Some c /\
     chunk_result read_pdf b64encode page_range llm_invoke i c llm_type
       (batch_config llm_type mppc true rh retries us ex) = Raise e) ->
  let run := convert read_pdf b64encode page_range llm_invoke (Some page_count) out llm_type
               mppc true rh retries us ex in
  let r := join nl (map (fun j => batch_header_policy
                                    (batch_config llm_type mppc true rh retries us ex) j (succ j))
                        (seq 0 i)) in
  snd run = inr r /\ invoked (fst run) = seq 0 (S i) /\
  saved (fst run) = [(PartialFile f i, r); (IncompleteFile f, r); (OutFile f, r)].
Proof.
  intros Hf Hc Hlt Hs Hi Hok Hfail. cbv zeta.
  rewrite (convert_chunked_run out page_count mppc rh retries us ex chunks Hc Hlt Hs).
  cbv zeta. unfold process_chunks.
  set (config := batch_config llm_type mppc true rh retries us ex) in *.
  pose proof (process_chunks_from_failure read_pdf b64encode page_range llm_invoke llm_type
                config out chunks 0 [] i e succ Hok Hfail) as Hsnd.
  destruct (process_chunks_from_failure_events config out chunks 0 [] i e succ Hok Hfail)
    as (Hinv & Hsv).
  destruct (process_chunks_from read_pdf b64encode page_range llm_invoke chunks 0 []
              llm_type config out) as [evs r0].
  cbn [fst snd] in *. rewrite Hsnd.
  destruct i as [|i]; [lia|]. cbn [app plus] in *.
  unfold handle_chunk_failure, save_partial_results in *. rewrite Hf in *.
  cbn [seq map] in *. cbn [fst snd] in *.
  split; [reflexivity|]. observe_all. rewrite Hinv, Hsv.
  cbn [invoked saved flat_map app]. rewrite app_nil_r. split; reflexivity.
Qed.

End Runs.
End RunFacts.

Module StreamFacts.
Import StrFacts ConverterFacts TextFacts RunFacts.

Section Streams.
Variable read_pdf : pdf_doc -> option (list page_extract).
Variable b64encode : pdf_doc -> text.
Variable page_range : PdfChunk -> text.
Variable llm_invoke : nat -> HumanMessage -> response.
Variable llm_type : string.

Lemma join_cons2 x y l : join nl (x :: y :: l) = x ++ nl :: join nl (y :: l).
Proof. reflexivity. Qed.

Lemma stream_from_success config output_filename out chunks i0 n acc (succ : nat -> text) :
  (forall j c, nth_error chunks j = Some c ->
     chunk_result read_pdf b64encode page_range llm_invoke (i0 + j) c llm_type config
     = Ok (succ (i0 + j))) ->
  let evs := stream_from read_pdf b64encode page_range llm_invoke chunks i0 n acc
               llm_type config output_filename out in
  let ys := map (fun j => stream_header_policy config j (succ j)) (seq i0 (List.length chunks)) in
  yields evs = ys /\ invoked evs = seq i0 (List.length chunks) /\ saved evs = [] /\
  (forall f, out = Some f -> i0 + List.length chunks = n -> written f evs = join nl ys).
Proof.
  revert i0 acc; induction chunks as [|ch rest IH]; intros i0 acc Hok.
  - cbn. repeat split.
  - cbv zeta. cbn [stream_from].
    unfold chunk_result in Hok.
    destruct (convert_chunk read_pdf b64encode llm_invoke i0 (data ch) llm_type
                (lit " (" ++ page_range ch ++ lit ")") (i0 =? 0)
                (cfg_remove_header_if_not_first config)
                (cfg_use_structured_messages config) (cfg_extract_text config))
      as [evs r] eqn:Ec.
    assert (Hr : r = Ok (succ i0)).
    { specialize (Hok 0 ch eq_refl). rewrite Nat.add_0_r, Ec in Hok. exact Hok. }
    subst r. pose proof (f_equal fst Ec) as Hevs; cbn [fst] in Hevs; subst evs.
    cbv beta iota zeta.
    change (if cfg_remove_header_if_not_first config && (0 <? i0)
            then CsvProcessor.remove_header (succ i0) else succ i0)
      with (stream_header_policy config i0 (succ i0)).
    destruct (IH (S i0) (acc ++ [stream_header_policy config i0 (succ i0)])) as (H1 & H2 & H3 & H4).
    { intros j c Hc. replace (S i0 + j) with (i0 + S j) by lia. apply (Hok (S j)). exact Hc. }
    cbv zeta in H1, H2, H3, H4.
    observe_all. rewrite H1, H2, H3, convert_chunk_invoked, convert_chunk_saved,
      convert_chunk_yields.
    cbn [List.length seq map].
    split; [|split; [|split]].
    + destruct out as [g|]; [destruct (i0 <? n - 1)|]; reflexivity.
    + destruct out as [g|]; [destruct (i0 <? n - 1)|]; reflexivity.
    + destruct out as [g|]; [destruct (i0 <? n - 1)|]; reflexivity.
    + intros f Hout Hn. subst out. observe_all. rewrite convert_chunk_written.
      rewrite (H4 f eq_refl) by (cbn [List.length] in Hn; lia).
      cbn [written flat_map]. rewrite String.eqb_refl.
      destruct rest as [|ch' rest'].
      * cbn [List.length] in Hn. replace (i0 <? n - 1) with false
          by (symmetry; apply Nat.ltb_ge; lia).
        cbn. rewrite !app_nil_r. reflexivity.
      * cbn [List.length] in Hn. replace (i0 <? n - 1) with true
          by (symmetry; apply Nat.ltb_lt; lia).
        cbn [List.length seq map]. rewrite join_cons2.
        cbn [flat_map written]. rewrite String.eqb_refl.
        cbn [app]. rewrite ?app_nil_r, <- ?app_assoc. reflexivity.
Qed.

(** [convert_streaming] once the document is read and planned: the
    events of the opened output file around those of the loop. *)
Lemma convert_streaming_run out page_count mppc rh retries us ex chunks :
  client_ok llm_type = true ->
  PdfUtils.split_into_chunks page_count mppc = Ok chunks ->
  convert_streaming read_pdf b64encode page_range llm_invoke (Some page_count) out llm_type
    mppc rh retries us ex
  = ((match filename out with Some f => [EvOpen (OutFile f)] | None => [] end) ++
     stream_from read_pdf b64encode page_range llm_invoke chunks 0 (List.length chunks) []
       llm_type (streaming_config mppc rh retries us ex) out (filename out) ++
     (match filename out with Some f => [EvClose (OutFile f)] | None => [] end), None).
Proof.
  intros Hc Hs. unfold convert_streaming. rewrite Hc. cbn [negb]. cbv zeta.
  replace (cfg_max_pages_per_chunk (streaming_config mppc rh retries us ex)) with mppc
    by reflexivity.
  rewrite Hs. reflexivity.
Qed.

(** When every planned chunk converts, [convert_streaming] ends by
    exhaustion, hands the consumer one header-policy text per chunk in
    order, invokes the provider once per chunk, saves no whole file, and
    leaves in the output file (when one is named) exactly the
    newline-joined items it yielded. *)
Theorem convert_streaming_all_succeed out page_count mppc rh retries us ex chunks
    (succ : nat -> text) :
  client_ok llm_type = true ->
  PdfUtils.split_into_chunks page_count mppc = Ok chunks ->
  (forall j c, nth_error chunks j = Some c ->
     chunk_result read_pdf b64encode page_range llm_invoke j c llm_type
       (streaming_config mppc rh retries us ex) = Ok (succ j)) ->
  let run := convert_streaming read_pdf b64encode page_range llm_invoke (Some page_count) out
               llm_type mppc rh retries us ex in
  let ys := map (fun j => stream_header_policy (streaming_config mppc rh retries us ex) j (succ j))
                (seq 0 (List.length chunks)) in
  snd run = None /\ yields (fst run) = ys /\ invoked (fst run) = seq 0 (List.length chunks) /\
  saved (fst run) = [] /\
  (forall f, filename out = Some f -> written f (fst run) = join nl ys).
Proof.
  intros Hc Hs Hok. cbv zeta.
  rewrite (convert_streaming_run out page_count mppc rh retries us ex chunks Hc Hs).
  destruct (stream_from_success (streaming_config mppc rh retries us ex) out (filename out)
              chunks 0 (List.length chunks) [] succ (fun j c H => Hok j c H))
    as (H1 & H2 & H3 & H4).
  cbv zeta in H1, H2, H3, H4. cbn [fst snd].
  split; [reflexivity|]. observe_all. rewrite H1, H2, H3.
  destruct (filename out) as [g|] eqn:Ef.
  - cbn [yields invoked saved flat_map app]. rewrite !app_nil_r.
    split; [reflexivity|split; [reflexivity|split; [reflexivity|]]].
    intros f Hf. inversion Hf; subst f. observe_all.
    rewrite <- (H4 g eq_refl eq_refl).
    change (written g (EvOpen (OutFile g) :: ?L)) with (written g ([EvOpen (OutFile g)] ++ L)).
    observe_all. cbn [written flat_map app]. rewrite app_nil_r. reflexivity.
  - cbn [yields invoked saved flat_map app]. rewrite !app_nil_r.
    split; [reflexivity|split; [reflexivity|split; [reflexivity|]]].
    intros f Hf. discriminate.
Qed.

Lemma stream_from_failure_written config output_filename chunks i0 n acc k e
    (succ : nat -> text) f :
  (forall j c, j < k -> nth_error chunks j = Some c ->
     chunk_result read_pdf b64encode page_range llm_invoke (i0 + j) c llm_type config
     = Ok (succ (i0 + j))) ->
  (exists c, nth_error chunks k = Some c /\
     chunk_result read_pdf b64encode page_range llm_invoke (i0 + k) c llm_type config
     = Raise e) ->
  i0 + List.length chunks = n ->
  written f (stream_from read_pdf b64encode page_range llm_invoke chunks i0 n acc
               llm_type config output_filename (Some f))
  = flat_map (fun y => y ++ [nl])
      (map (fun j => stream_header_policy config j (succ j)) (seq i0 k)).
Proof.
  revert i0 acc k. induction chunks as [|ch rest IH]; intros i0 acc k Hok [c [Hc Hfail]] Hn.
  - destruct k; discriminate.
  - cbn [stream_from].
    unfold chunk_result in Hok, Hfail.
    destruct (convert_chunk read_pdf b64encode llm_invoke i0 (data ch) llm_type
                (lit " (" ++ page_range ch ++ lit ")") (i0 =? 0)
                (cfg_remove_header_if_not_first config)
                (cfg_use_structured_messages config) (cfg_extract_text config))
      as [evs r] eqn:Ec.
    pose proof (f_equal fst Ec) as Hevs; cbn [fst] in Hevs; subst evs.
    destruct k as [|k].
    + cbn in Hc; inversion Hc; subst c. rewrite Nat.add_0_r in Hfail.
      rewrite Ec in Hfail; cbn [snd] in Hfail; subst r.
      cbv beta iota zeta. observe_all. rewrite convert_chunk_written.
      destruct (negb (is_nil_list acc) && is_some (filename output_filename));
        [unfold save_partial_results; destruct (filename output_filename)|]; reflexivity.
    + assert (Hr : r = Ok (succ i0)).
      { specialize (Hok 0 ch ltac:(lia) eq_refl).
        rewrite Nat.add_0_r, Ec in Hok. exact Hok. }
      subst r. cbv beta iota zeta.
      change (if cfg_remove_header_if_not_first config && (0 <? i0)
              then CsvProcessor.remove_header (succ i0) else succ i0)
        with (stream_header_policy config i0 (succ i0)).
      assert (Hlen : S k < List.length (ch :: rest))
        by (apply nth_error_Some; congruence).
      cbn [List.length] in Hlen, Hn.
      replace (i0 <? n - 1) with true by (symmetry; apply Nat.ltb_lt; lia).
      observe_all. rewrite convert_chunk_written.
      rewrite (IH (S i0) (acc ++ [stream_header_policy config i0 (succ i0)]) k).
      * cbn [written flat_map seq map]. rewrite String.eqb_refl.
        cbn [app]. rewrite ?app_nil_r, <- ?app_assoc. reflexivity.
      * intros j c' Hj Hc'. replace (S i0 + j) with (i0 + S j) by lia.
        apply (Hok (S j)); [lia | exact Hc'].
      * exists c; split; [exact Hc|].
        replace (S i0 + k) with (i0 + S k) by lia. exact Hfail.
      * lia.
Qed.

(** When [convert_streaming] stops at a failing chunk, the output file
    holds each yielded item followed by a line break, the last one
    included: the file ends in a newline, unlike after a full run. *)
Theorem convert_streaming_stop_written out f page_count mppc rh retries us ex chunks k e
    (succ : nat -> text) :
  filename out = Some f ->
  client_ok llm_type = true ->
  PdfUtils.split_into_chunks page_count mppc = Ok chunks ->
  (forall j c, j < k -> nth_error chunks j = Some c ->
     chunk_result read_pdf b64encode page_range llm_invoke j c llm_type
       (streaming_config mppc rh retries us ex) = Ok (succ j)) ->
  (exists c, nth_error chunks k = Some c /\
     chunk_result read_pdf b64encode page_range llm_invoke k c llm_type
       (streaming_config mppc rh retries us ex) = Raise e) ->
  let run := convert_streaming read_pdf b64encode page_range llm_invoke (Some page_count) out
               llm_type mppc rh retries us ex in
  written f (fst run) = flat_map (fun y => y ++ [nl]) (yields (fst run)).
Proof.
  intros Hf Hc Hs Hok Hfail. cbv zeta.
  rewrite (convert_streaming_run out page_count mppc rh retries us ex chunks Hc Hs).
  cbn [fst]. rewrite Hf.
  destruct (stream_from_failure read_pdf b64encode page_range llm_invoke llm_type
              (streaming_config mppc rh retries us ex) out chunks 0 (List.length chunks) []
              (Some f) k e succ f Hf Hok Hfail) as (Hy & _ & _).
  cbv zeta in Hy.
  observe_all. rewrite Hy.
  rewrite (stream_from_failure_written (streaming_config mppc rh retries us ex) out chunks 0
             (List.length chunks) [] k e succ f Hok Hfail eq_refl).
  cbn [yields written flat_map app]. rewrite !app_nil_r. reflexivity.
Qed.

(** When the provider cap leaves [max_pages_per_chunk] as it is and the
    file needs more than one chunk, a [convert] run in which every chunk
    converts returns exactly the newline-joined items a
    [convert_streaming] run over the same file hands its consumer,
    whatever output file either run is given. *)
Theorem convert_matches_streaming out out' page_count mppc rh retries us ex chunks
    (succ : nat -> text) :
  client_ok llm_type = true ->
  Config.get_max_chunk_pages llm_type mppc = mppc ->
  mppc < page_count ->
  PdfUtils.split_into_chunks page_count mppc = Ok chunks ->
  (forall j c, nth_error chunks j = Some c ->
     chunk_result read_pdf b64encode page_range llm_invoke j c llm_type
       (batch_config llm_type mppc true rh retries us ex) = Ok (succ j)) ->
  snd (convert read_pdf b64encode page_range llm_invoke (Some page_count) out llm_type
         mppc true rh retries us ex)
  = inr (join nl (yields (fst (convert_streaming read_pdf b64encode page_range llm_invoke
                                 (Some page_count) out' llm_type mppc rh retries us ex)))).
Proof.
  intros Hc Hg Hlt Hs Hok.
  assert (Hlt' : Config.get_max_chunk_pages llm_type mppc < page_count) by (rewrite Hg; exact Hlt).
  assert (Hs' : PdfUtils.split_into_chunks page_count (Config.get_max_chunk_pages llm_type mppc)
                = Ok chunks) by (rewrite Hg; exact Hs).
  rewrite (convert_chunked_run read_pdf b64encode page_range llm_invoke llm_type out page_count mppc rh retries us ex chunks Hc Hlt' Hs').
  cbv zeta. cbn [snd]. unfold process_chunks.
  destruct (process_chunks_from_success read_pdf b64encode page_range llm_invoke llm_type (batch_config llm_type mppc true rh retries us ex) out
              chunks 0 [] succ (fun j c H => Hok j c H)) as (H1 & _ & _).
  cbv zeta in H1. rewrite H1.
  rewrite (convert_streaming_run out' page_count mppc rh retries us ex chunks Hc Hs).
  cbn [fst].
  destruct (stream_from_success (streaming_config mppc rh retries us ex) out' (filename out')
              chunks 0 (List.length chunks) [] succ (fun j c H => Hok j c H))
    as (H2 & _ & _ & _).
  cbv zeta in H2. observe_all. rewrite H2.
  assert (Ho : forall l : list event, yields (match filename out' with
                 Some f => [EvOpen (OutFile f)] | None => [] end) = []
                 /\ yields (match filename out' with
                 Some f => [EvClose (OutFile f)] | None => [] end) = [])
    by (intros _; destruct (filename out'); split; reflexivity).
  destruct (Ho []) as [-> ->]. cbn [app]. rewrite app_nil_r.
  f_equal. f_equal. apply map_ext_in. intros j Hj.
  apply in_seq in Hj.
  destruct (nth_error chunks j) as [c|] eqn:Ec.
  2: { apply nth_error_None in Ec. lia. }
  pose proof (chunk_result_nonempty read_pdf b64encode page_range llm_invoke llm_type j c _ _ (Hok j c Ec)) as Hne.
  unfold batch_header_policy, stream_header_policy, batch_config, streaming_config.
  cbn [cfg_remove_header_if_not_first].
  destruct (succ j) as [|a t]; [congruence|]. cbn [PdfUtils.truthy]. rewrite andb_true_r.
  reflexivity.
Qed.

(** When [convert] does not chunk (auto-chunking off, or the capped page
    limit not below the page count), it invokes the provider exactly
    once, at index 0, with the whole document and the first-chunk prompt
    without page info or header instruction; on success it saves the
    result to the output file, if one is named, and on failure it saves
    nothing and raises the error wrapped as "Failed to convert PDF". *)
Theorem convert_single_pass out page_count mppc auto rh retries us ex :
  client_ok llm_type = true ->
  auto && (Config.get_max_chunk_pages llm_type mppc <? page_count) = false ->
  let run := convert read_pdf b64encode page_range llm_invoke (Some page_count) out llm_type
               mppc auto rh retries us ex in
  invocations (fst run)
  = [(0, build_message read_pdf b64encode (build_conversion_prompt [] true false)
           (seq 0 page_count) llm_type us ex)] /\
  match snd run with
  | inr r => saved (fst run) = match filename out with Some f => [(OutFile f, r)] | None => [] end
  | inl e => saved (fst run) = [] /\ exists e', e = PdfConverterException ConvertFailed e'
  end.
Proof.
  intros Hc Ha. cbv zeta. unfold convert. rewrite Hc. cbn [negb].
  unfold batch_config. cbn [cfg_auto_chunk cfg_max_pages_per_chunk cfg_use_structured_messages
                             cfg_extract_text].
  rewrite Ha. unfold convert_chunk. cbv zeta.
  destruct (llm_invoke 0 _) as [c| |].
  - destruct (CsvProcessor.clean_response c) as [r|e].
    + destruct (filename out); cbn; split; reflexivity.
    + cbn. split; [reflexivity|split; [reflexivity|eexists; reflexivity]].
  - cbn. split; [reflexivity|split; [reflexivity|eexists; reflexivity]].
  - cbn. split; [reflexivity|split; [reflexivity|eexists; reflexivity]].
Qed.

(** When text extraction is on and finds text in the chunk, the message
    carries that text in place of the PDF: the prompt and the text as two
    parts of a structured message, or the prompt followed by the
    extracted-text section in a flat one; so it is the same whatever base64
    encoder is used. *)
Theorem build_message_text_replaces_pdf b64encode' prompt d us t :
  PdfUtils.extract_text (read_pdf d) = Some t -> t <> [] ->
  build_message read_pdf b64encode prompt d llm_type us true
  = (if us && Config.supports_structured_messages llm_type
     then StructuredMessage [TextPart prompt; TextPart t]
     else FlatMessage (prompt ++ lit "

Extracted text:
" ++ t)) /\
  build_message read_pdf b64encode prompt d llm_type us true
  = build_message read_pdf b64encode' prompt d llm_type us true.
Proof.
  intros He Ht. unfold build_message. rewrite He.
  destruct t as [|a t]; [congruence|]. split; reflexivity.
Qed.

End Streams.
End StreamFacts.

(* ------------------------------------------------------------------ *)
(** ** Instances of the further properties *)

(** Two pages, one unreadable: the text has one line per page. *)
Lemma pdf_to_text_one_line_per_page_witness :
  split nl (Basic.pdf_to_text [Extracted (Some (lit "ab")); ExtractFails])
  = map PdfUtils.page_text [Extracted (Some (lit "ab")); ExtractFails].
Proof.
  apply (TextFacts.pdf_to_text_one_line_per_page
           [Extracted (Some (lit "ab")); ExtractFails]).
  - discriminate.
  - constructor; [|constructor; [|constructor]].
    + cbn. intros [H|[H|H]]; [discriminate|discriminate|exact H].
    + cbn. intros H. exact H.
Defined.

(** A fenced reply cleans to [a,b], which has the three properties. *)
Lemma clean_response_output_witness :
  CsvProcessor.clean_response (lit "```csv
a,b
```") = Ok (lit "a,b") /\
  (lit "a,b" <> [] /\ contains (lit "a,b") (lit "```") = false /\
   strip (lit "a,b") = lit "a,b").
Proof.
  split; [vm_compute; reflexivity|].
  apply (TextFacts.clean_response_output (lit "```csv
a,b
```")).
  vm_compute. reflexivity.
Defined.

(** A reply of two spaces is rejected as empty. *)
Lemma clean_response_blank_witness :
  CsvProcessor.clean_response (lit "  ")
  = Raise (ValueError (lit "LLM returned empty CSV after cleaning")).
Proof.
  apply (TextFacts.clean_response_blank (lit "  ")).
  - discriminate.
  - reflexivity.
Defined.


(** An empty cache: the second request for ["openai"] returns the client
    the first one created. *)
Lemma get_or_create_client_cached_witness :
  match get_or_create_client (fun _ => None) [] "openai" 3 with
  | Ok (c, llms') =>
      get_or_create_client (fun _ => Some "key"%string) llms' "openai" 5 = Ok (c, llms')
  | Raise _ => False
  end.
Proof.
  destruct (get_or_create_client (fun _ => None) [] "openai" 3) as [[c llms']|e] eqn:E.
  - exact (proj1 (ProviderFacts.get_or_create_client_cached (fun _ => None)
                    (fun _ => Some "key"%string) [] "openai" 3 5 c llms' eq_refl E)).
  - vm_compute in E. discriminate E.
Defined.

(** The second of three chunks converts to two lines; with header removal
    on, both loops drop its first line. *)
Lemma batch_stream_header_policy_agree_witness :
  batch_header_policy (batch_config "openai" 1 true true 3 false false) 1
    (lit "a,b" ++ nl :: lit "c,d")
  = stream_header_policy (batch_config "openai" 1 true true 3 false false) 1
    (lit "a,b" ++ nl :: lit "c,d").
Proof.
  apply (RunFacts.batch_stream_header_policy_agree (fun _ => None) (fun _ => [])
           (fun _ => []) (fun _ _ => Response (lit "a,b" ++ nl :: lit "c,d")) "openai"
           1 (mkChunk [1] 2 2 3) (batch_config "openai" 1 true true 3 false false)).
  vm_compute. reflexivity.
Defined.

(** Three one-page chunks that all convert to [a,b]: [convert] returns
    them joined by line breaks. *)
Lemma convert_all_chunks_succeed_witness :
  snd (convert (fun _ => None) (fun _ => []) (fun _ => [])
         (fun _ _ => Response (lit "a,b"))
         (Some 3) None "openai" 1 true false 3 false false)
  = inr (lit "a,b" ++ nl :: lit "a,b" ++ nl :: lit "a,b").
Proof.
  destruct (RunFacts.convert_all_chunks_succeed (fun _ => None) (fun _ => []) (fun _ => [])
              (fun _ _ => Response (lit "a,b")) "openai" None 3 1 false 3 false false
              [mkChunk [0] 1 1 3; mkChunk [1] 2 2 3; mkChunk [2] 3 3 3]
              (fun _ => lit "a,b")) as (H & _ & _).
  - reflexivity.
  - vm_compute; lia.
  - reflexivity.
  - intros j c Hc. destruct j as [|[|[|j]]]; cbn in Hc; inversion Hc; subst; reflexivity.
  - rewrite H. vm_compute. reflexivity.
Defined.

(** Three one-page chunks, the second raising, an output file: the first
    chunk's text is saved as partial, incomplete and final result. *)
Lemma convert_partial_failure_saves_witness :
  saved (fst (convert (fun _ => None) (fun _ => []) (fun _ => [])
                (fun n _ => if n =? 0 then Response (lit "a,b") else InvokeRaises)
                (Some 3) (Some "out.csv"%string) "openai" 1 true false 3 false false))
  = [(PartialFile "out.csv" 1, lit "a,b"); (IncompleteFile "out.csv", lit "a,b");
     (OutFile "out.csv", lit "a,b")].
Proof.
  destruct (RunFacts.convert_partial_failure_saves (fun _ => None) (fun _ => [])
              (fun _ => [])
              (fun n _ => if n =? 0 then Response (lit "a,b") else InvokeRaises) "openai"
              (Some "out.csv"%string) "out.csv" 3 1 false 3 false false
              [mkChunk [0] 1 1 3; mkChunk [1] 2 2 3; mkChunk [2] 3 3 3]
              1 ProviderError (fun _ => lit "a,b")) as (_ & _ & H).
  - reflexivity.
  - reflexivity.
  - vm_compute; lia.
  - reflexivity.
  - lia.
  - intros j c Hj Hc. destruct j as [|j]; [|lia].
    cbn in Hc. inversion Hc. reflexivity.
  - exists (mkChunk [1] 2 2 3). split; reflexivity.
  - rewrite H. vm_compute. reflexivity.
Defined.

(** Three one-page chunks that all convert to [a,b], streamed to an
    output file: the file holds the three items joined by line breaks. *)
Lemma convert_streaming_all_succeed_witness :
  written "out.csv" (fst (convert_streaming (fun _ => None) (fun _ => []) (fun _ => [])
                            (fun _ _ => Response (lit "a,b"))
                            (Some 3) (Some "out.csv"%string) "openai" 1 false 3 false false))
  = lit "a,b" ++ nl :: lit "a,b" ++ nl :: lit "a,b".
Proof.
  destruct (StreamFacts.convert_streaming_all_succeed (fun _ => None) (fun _ => [])
              (fun _ => []) (fun _ _ => Response (lit "a,b")) "openai"
              (Some "out.csv"%string) 3 1 false 3 false false
              [mkChunk [0] 1 1 3; mkChunk [1] 2 2 3; mkChunk [2] 3 3 3]
              (fun _ => lit "a,b")) as (_ & _ & _ & _ & H).
  - reflexivity.
  - reflexivity.
  - intros j c Hc. destruct j as [|[|[|j]]]; cbn in Hc; inversion Hc; subst; reflexivity.
  - rewrite (H "out.csv"%string eq_refl). vm_compute. reflexivity.
Defined.

(** Three one-page chunks, the second raising, streamed to an output
    file: the file holds the first item and a line break. *)
Lemma convert_streaming_stop_written_witness :
  written "out.csv" (fst (convert_streaming (fun _ => None) (fun _ => []) (fun _ => [])
                            (fun n _ => if n =? 0 then Response (lit "a,b") else InvokeRaises)
                            (Some 3) (Some "out.csv"%string) "openai" 1 false 3 false false))
  = lit "a,b" ++ [nl].
Proof.
  rewrite (StreamFacts.convert_streaming_stop_written (fun _ => None) (fun _ => [])
             (fun _ => [])
             (fun n _ => if n =? 0 then Response (lit "a,b") else InvokeRaises) "openai"
             (Some "out.csv"%string) "out.csv" 3 1 false 3 false false
             [mkChunk [0] 1 1 3; mkChunk [1] 2 2 3; mkChunk [2] 3 3 3]
             1 ProviderError (fun _ => lit "a,b")).
  - vm_compute. reflexivity.
  - reflexivity.
  - reflexivity.
  - reflexivity.
  - intros j c Hj Hc. destruct j as [|j]; [|lia].
    cbn in Hc. inversion Hc. reflexivity.
  - exists (mkChunk [1] 2 2 3). split; reflexivity.
Defined.

(** Three one-page chunks that all convert: [convert] returns what
    [convert_streaming] yields, joined by line breaks. *)
Lemma convert_matches_streaming_witness :
  snd (convert (fun _ => None) (fun _ => []) (fun _ => [])
         (fun _ _ => Response (lit "a,b"))
         (Some 3) None "openai" 1 true false 3 false false)
  = inr (join nl (yields (fst (convert_streaming (fun _ => None) (fun _ => []) (fun _ => [])
                                 (fun _ _ => Response (lit "a,b"))
                                 (Some 3) (Some "out.csv"%string) "openai" 1 false 3
                                 false false)))).
Proof.
  apply (StreamFacts.convert_matches_streaming (fun _ => None) (fun _ => []) (fun _ => [])
           (fun _ _ => Response (lit "a,b")) "openai" None (Some "out.csv"%string)
           3 1 false 3 false false
           [mkChunk [0] 1 1 3; mkChunk [1] 2 2 3; mkChunk [2] 3 3 3]
           (fun _ => lit "a,b")).
  - reflexivity.
  - reflexivity.
  - lia.
  - reflexivity.
  - intros j c Hc. destruct j as [|[|[|j]]]; cbn in Hc; inversion Hc; subst; reflexivity.
Defined.

(** Auto-chunking off on a two-page file: one invocation, with pages
    0 and 1 and the plain first-chunk prompt. *)
Lemma convert_single_pass_witness :
  invocations (fst (convert (fun _ => None) (fun _ => []) (fun _ => [])
                      (fun _ _ => Response (lit "a,b"))
                      (Some 2) None "openai" 1 false true 3 false false))
  = [(0, build_message (fun _ => None) (fun _ => [])
           (build_conversion_prompt [] true false) (seq 0 2) "openai" false false)].
Proof.
  destruct (StreamFacts.convert_single_pass (fun _ => None) (fun _ => []) (fun _ => [])
              (fun _ _ => Response (lit "a,b")) "openai" None 2 1 false true 3 false false)
    as (H & _).
  - reflexivity.
  - reflexivity.
  - exact H.
Defined.

(** A one-page chunk reading [hi], flat messages: the message is the
    prompt and the extracted-text section, the same with either encoder. *)
Lemma build_message_text_replaces_pdf_witness :
  build_message (fun _ => Some [Extracted (Some (lit "hi"))]) (fun _ => [])
    (lit "p") [0] "openai" false true
  = FlatMessage (lit "p" ++ lit "

Extracted text:
" ++ lit "hi") /\
  build_message (fun _ => Some [Extracted (Some (lit "hi"))]) (fun _ => [])
    (lit "p") [0] "openai" false true
  = build_message (fun _ => Some [Extracted (Some (lit "hi"))]) (fun _ => lit "x")
    (lit "p") [0] "openai" false true.
Proof.
  apply (StreamFacts.build_message_text_replaces_pdf
           (fun _ => Some [Extracted (Some (lit "hi"))]) (fun _ => []) "openai"
           (fun _ => lit "x") (lit "p") [0] false (lit "hi")).
  - reflexivity.
  - discriminate.
Defined.

(* ------------------------------------------------------------------ *)
(** ** The masthead dedupe of [pdf_to_csv] *)

(** C6 (as amended): the masthead is removed only when the shared
    whole-line prefix trims to at least 10 characters: the pages
    ["HEADER\ncontentA"; "HEADER\ncontentB"] share only "HEADER\n" (6
    characters once trimmed) and are left unchanged; with a 10-character
    header line the pages become ["contentA"; "contentB"]; and pages with no
    shared prefix are unchanged.  In general, for two pages or more, the
    whole-line prefix [masthead_prefix] starts every page, and it is cut
    from every page when it trims to at least 10 characters and the pages
    are left unchanged otherwise. *)
Theorem masthead_dedupe_threshold :
  Basic.dedupe_pages true [lit "HEADER
contentA"; lit "HEADER
contentB"]
  = [lit "HEADER
contentA"; lit "HEADER
contentB"] /\
  Basic.dedupe_pages true [lit "HEADERLINE
contentA"; lit "HEADERLINE
contentB"]
  = [lit "contentA"; lit "contentB"] /\
  (forall dedupe_header pages, Basic.find_common_prefix pages 1000 = [] ->
     Basic.dedupe_pages dedupe_header pages = pages) /\
  (forall pages, 1 < List.length pages ->
     let prefix := Basic.masthead_prefix pages in
     Forall (fun p => startswith p prefix = true) pages /\
     (10 <= List.length (strip prefix) ->
        Basic.dedupe_pages true pages = map (skipn (List.length prefix)) pages) /\
     (List.length (strip prefix) < 10 -> Basic.dedupe_pages true pages = pages)).
Proof.
  split; [vm_compute; reflexivity|split; [vm_compute; reflexivity|split]].
  - intros d pages H. unfold Basic.dedupe_pages. rewrite H.
    destruct (d && (1 <? List.length pages)); reflexivity.
  - intros pages Hlen. cbv zeta.
    assert (Hq : Forall (fun p => startswith p (Basic.masthead_prefix pages) = true) pages).
    { destruct (TextFacts.common_prefix_of_all pages 1000) as [_ Hall].
      assert (Hk : forall k, Forall (fun p => startswith p
                     (firstn k (Basic.find_common_prefix pages 1000)) = true) pages).
      { intro k. eapply Forall_impl; [|exact Hall]. intros p Hp.
        apply TextFacts.startswith_firstn_of; exact Hp. }
      unfold Basic.masthead_prefix. cbv zeta.
      destruct (contains (Basic.find_common_prefix pages 1000) [nl]);
        [destruct (rfind (Basic.find_common_prefix pages 1000) nl)|]; auto. }
    assert (Hd : Basic.dedupe_pages true pages =
      if 10 <=? List.length (strip (Basic.masthead_prefix pages))
      then map (fun p => if startswith p (Basic.masthead_prefix pages)
                         then skipn (List.length (Basic.masthead_prefix pages)) p else p) pages
      else pages).
    { unfold Basic.dedupe_pages. replace (1 <? List.length pages) with true
        by (symmetry; apply Nat.ltb_lt; exact Hlen).
      reflexivity. }
    split; [exact Hq|split]; intro H; rewrite Hd.
    + replace (10 <=? List.length (strip (Basic.masthead_prefix pages))) with true
        by (symmetry; apply Nat.leb_le; exact H).
      apply map_ext_in. intros p Hp. rewrite Forall_forall in Hq. rewrite (Hq p Hp).
      reflexivity.
    + replace (10 <=? List.length (strip (Basic.masthead_prefix pages))) with false
        by (symmetry; apply Nat.leb_gt; exact H).
      reflexivity.
Qed.

(** A witness for C6: two pages with no common prefix are unchanged, and
    two pages under the header line "MASTHEAD 2024" lose that line. *)
Lemma masthead_dedupe_threshold_witness :
  Basic.dedupe_pages true [lit "abc"; lit "xyz"] = [lit "abc"; lit "xyz"] /\
  Basic.dedupe_pages true [lit "MASTHEAD 2024
page1"; lit "MASTHEAD 2024
page2"]
  = map (skipn (List.length (Basic.masthead_prefix [lit "MASTHEAD 2024
page1"; lit "MASTHEAD 2024
page2"]))) [lit "MASTHEAD 2024
page1"; lit "MASTHEAD 2024
page2"].
Proof.
  split.
  - apply (proj1 (proj2 (proj2 masthead_dedupe_threshold))). vm_compute. reflexivity.
  - destruct (proj2 (proj2 (proj2 masthead_dedupe_threshold)) [lit "MASTHEAD 2024
page1"; lit "MASTHEAD 2024
page2"]) as (_ & H & _).
    + cbn [List.length]. lia.
    + apply H. apply Nat.leb_le. vm_compute. reflexivity.
Defined.
